(** * The TIMIT seq2seq teacher recipe (experiment_teacher.py)

    A shallow embedding of the training controller [ASR] and of the part of
    the script that resumes, trains, restores the best checkpoint and writes
    the error report.

    The recipe is glue code over torch and the speechbrain library.  Every
    call into them is kept as a call: what the callee computes is a field of
    [Params] (the objects of the hyperparameter bundle [params]) or of
    [Library] (functions imported from speechbrain), and the call is recorded
    as an [Event], so that the order of the calls and the arguments they
    receive can be stated.

    The arithmetic the recipe itself does on tensor elements (the weighted
    sum of the losses, the absolute and relative label lengths) is an
    interface, [Arith], with two instances: [ieee32], the single-precision
    arithmetic of torch's default float tensors with its rounding, infinities
    and NaN, and [exact_arith], the rationals, where rounding plays no part.
    The error rates and learning rates, which the recipe only passes on, are
    rationals. *)

From Stdlib Require Import ZArith QArith Qround Lqa SpecFloat.
From stdpp Require Import base strings list sorting gmap.

Local Open Scope string_scope.
Local Open Scope list_scope.

(** ** Scalar arithmetic *)

(** The operations of the recipe on the elements of a float tensor.  The
    other operand is a Python number: the configured weight, the padded
    width [phns.shape[1]], or the literal 1. *)
Class Arith := {
  Scalar : Type;                          (* an element of a float tensor *)
  PyFloat : Type;                         (* a Python float: [params.ctc_weight] *)
  py_one_minus : PyFloat -> PyFloat;      (* [1 - w], on Python floats *)
  t_scale : PyFloat -> Scalar -> Scalar;  (* [w * t], a Python float times a tensor *)
  t_add : Scalar -> Scalar -> Scalar;     (* [t + u] *)
  t_mul_int : Scalar -> nat -> Scalar;    (* [t * n], with [n] a Python int *)
  t_add_one : Scalar -> Scalar;           (* [t + 1] *)
  t_div_int : Scalar -> nat -> Scalar;    (* [t / n], with [n] a Python int *)
  torch_round : Scalar -> Scalar;         (* [torch.round] *)
}.

(** *** Single precision, as torch computes

    A float32 tensor element is a [spec_float] of precision 24 and maximal
    exponent 128; a Python float is one of precision 53 and maximal exponent
    1024.  A Python number that meets a float32 tensor is converted to
    float32 and the operation is done in float32, rounding to nearest with
    ties to even. *)
Module Binary32.

Definition prec : Z := 24.
Definition emax : Z := 128.

Definition mul : spec_float -> spec_float -> spec_float := SFmul prec emax.
Definition add : spec_float -> spec_float -> spec_float := SFadd prec emax.
Definition div : spec_float -> spec_float -> spec_float := SFdiv prec emax.

(** A Python int as a float32. *)
Definition of_int (z : Z) : spec_float := binary_normalize prec emax z 0 false.

(** A Python float as a float32. *)
Definition of_double (x : spec_float) : spec_float :=
  match x with
  | S754_finite s m e => binary_round prec emax s m e
  | _ => x
  end.

(** torch.round: to the nearest whole number, a tie to the even one; the
    sign is kept, and the non-finite values are left as they are. *)
Definition round (x : spec_float) : spec_float :=
  match x with
  | S754_finite s m (Zneg p) =>
      let mrs := SpecFloat.iter_pos shr_1 p {| shr_m := Zpos m; shr_r := false; shr_s := false |} in
      binary_normalize prec emax
        (cond_Zopp s (round_nearest_even (shr_m mrs) (loc_of_shr_record mrs))) 0 s
  | _ => x
  end.

(** A value that is neither an infinity nor NaN. *)
Definition is_finite (x : spec_float) : bool :=
  match x with
  | S754_zero _ | S754_finite _ _ _ => true
  | _ => false
  end.

(** A value float32 has: the mantissa and the exponent are in range. *)
Definition valid (x : spec_float) : bool := valid_binary prec emax x.

(** Equal, or zeros that differ in sign at most. *)
Definition same_number (x y : spec_float) : Prop :=
  x = y \/ exists s s', x = S754_zero s /\ y = S754_zero s'.

End Binary32.

#[global] Instance spec_float_eq_dec : EqDecision spec_float.
Proof. solve_decision. Defined.

(** Python's [1.0] and [0.0]. *)
Definition py_one : spec_float := SFone 53 1024.
Definition py_zero : spec_float := S754_zero false.

Definition ieee32 : Arith := {|
  Scalar := spec_float;
  PyFloat := spec_float;
  py_one_minus := fun w => SFsub 53 1024 py_one w;
  t_scale := fun w t => Binary32.mul (Binary32.of_double w) t;
  t_add := Binary32.add;
  t_mul_int := fun t n => Binary32.mul t (Binary32.of_int (Z.of_nat n));
  t_add_one := fun t => Binary32.add t (Binary32.of_int 1);
  t_div_int := fun t n => Binary32.div t (Binary32.of_int (Z.of_nat n));
  torch_round := Binary32.round;
|}.

(** *** Exact arithmetic *)

(** Rounding half to even, on the rationals. *)
Definition round_half_even (q : Q) : Z :=
  let f := Qfloor q in
  match ((q - inject_Z f) ?= (1 # 2))%Q with
  | Lt => f
  | Gt => (f + 1)%Z
  | Eq => if Z.even f then f else (f + 1)%Z
  end.

Definition exact_arith : Arith := {|
  Scalar := Q;
  PyFloat := Q;
  py_one_minus := fun w => (1 - w)%Q;
  t_scale := Qmult;
  t_add := Qplus;
  t_mul_int := fun t n => (t * inject_Z (Z.of_nat n))%Q;
  t_add_one := fun t => (t + 1)%Q;
  t_div_int := fun t n => (t / inject_Z (Z.of_nat n))%Q;
  torch_round := fun q => inject_Z (round_half_even q);
|}.

(** Relative lengths of the utterances of a batch, one entry per utterance. *)
Abbreviation Lens := (list Scalar).

(** Decoded hypotheses: one index sequence per utterance. *)
Abbreviation Hyps := (list (list Z)).

(** ** Python exceptions raised by the recipe itself *)

Inductive Exn :=
| ValueError (msg : string)
| KeyError (key : string)
| TypeError (msg : string)
| UnboundLocalError (name : string).

(** ** What torch provides *)

Class Torch `{Arith} := {
  Tensor : Type;     (* float tensors: waveforms, features, activations, log-probabilities *)
  Labels : Type;     (* padded integer label tensors *)
  shape1 : Labels -> nat;          (* [phns.shape[1]], the padded width *)
  Weights : Type;    (* the parameters of the module list *)
  Grads : Type;      (* the gradients accumulated on them *)
  OptState : Type;
  SchedState : Type;
  NormState : Type;
  backward : Scalar -> Weights -> Grads -> Grads;   (* [loss.backward()] *)
  zero_grad : Grads -> Grads;
}.

(** ** Batches *)

Abbreviation Inputs := (list string * Tensor * Lens)%type.    (* ids, wavs, wav_lens *)
Abbreviation Targets := (list string * Labels * Lens)%type.   (* ids, phns, phn_lens *)
Abbreviation Batch := (Inputs * Targets)%type.

(** ** What the edit-distance utility provides *)

Class Scoring := {
  PerDetail : Type;  (* per-utterance edit-distance details *)
  WerSummary : Type; (* the corpus-level summary *)
}.

Section Recipe.

Context {Ar : Arith} {H : Torch} `{Scoring}.

(** ** Predictions and statistics *)

(** The tuple [compute_forward] returns: three elements, or four with the
    hypotheses. *)
Inductive Predictions :=
| Pred3 (p_ctc p_seq : Tensor) (wav_lens : Lens)
| Pred4 (p_ctc p_seq : Tensor) (wav_lens : Lens) (hyps : Hyps).

(** Values of the per-batch [stats] dict. *)
Inductive StatVal :=
| SLoss (loss : Scalar)
| SPer (per_stats : list PerDetail).

(** ** The hyperparameter bundle [params]

    A layer is a function of the weights and of its inputs; the normalizer
    carries its running statistics; the optimizer and the scheduler are
    functions on their states.  Random effects inside the modules
    (augmentation, dropout) are not represented. *)

Record Params := {
  augmentation : option (Tensor -> Lens -> bool -> Tensor);  (* may be absent *)
  compute_features : Tensor -> bool -> Tensor;
  normalize : NormState -> Tensor -> Lens -> Tensor * NormState;
  enc : Weights -> Tensor -> bool -> Tensor;
  ctc_lin : Weights -> Tensor -> bool -> Tensor;
  log_softmax : Tensor -> Tensor;
  emb : Weights -> Labels -> bool -> Tensor;
  dec : Weights -> Tensor -> Tensor -> Lens -> bool -> Tensor * Tensor;
  seq_lin : Weights -> Tensor -> bool -> Tensor;
  bos_index : Z;
  eos_index : Z;
  ctc_cost : Tensor -> Labels -> Lens -> Lens -> Scalar;
  seq_cost : Tensor -> Labels -> Lens -> Scalar;
  ctc_weight : PyFloat;
  optimizer_step : OptState -> Weights -> Grads -> Weights * OptState;
  lr_annealing : SchedState -> OptState -> nat -> Q -> (Q * Q) * SchedState * OptState;
  index2lab : gmap Z string;       (* train_loader.label_dict["phn"]["index2lab"] *)
  train_loader : list Batch;
  valid_loader : list Batch;
  test_loader : list Batch;
  number_of_epochs : nat;          (* the limit of [epoch_counter] *)
  wer_file : string;
}.

(** ** Functions imported from the speechbrain library *)

Record Library := {
  prepend_bos_token : Labels -> Z -> Labels;
  append_eos_token : Labels -> Lens -> Z -> Labels;
  greedy_searcher : Weights -> Tensor -> Lens -> Hyps * Tensor;
  beam_searcher : Weights -> Tensor -> Lens -> Hyps * Tensor;
  convert_index_to_lab : Hyps -> gmap Z string -> list (list string);
  undo_padding : Labels -> Lens -> Hyps;
  wer_details_for_batch :
    list string -> list (list string) -> list (list string) -> bool -> list PerDetail;
  summarize_error_rate : list StatVal -> Q;
  wer_summary : list StatVal -> WerSummary;
}.

(** ** The state the recipe works on *)

(** The recoverables registered with the checkpointer, under their names. *)
Record Recoverables := {
  model : Weights;
  optimizer : OptState;
  scheduler : SchedState;
  normalizer : NormState;
  counter : nat;                   (* [epoch_counter.current] *)
}.

(** Modelled from the spec: a checkpoint record of the Checkpointer, the
    recoverables at save time with the metadata (the save time and the
    phoneme error rate the recipe passes). *)
Record Ckpt := {
  unixtime : nat;
  meta_PER : Q;
  saved : Recoverables;
}.

(** What has been printed to a report file. *)
Inductive ReportItem :=
| RSummary (s : WerSummary)
| RAlignments (details : list StatVal).

Record World := {
  live : Recoverables;
  grads : Grads;
  clock : nat;
  checkpoints : list Ckpt;         (* most recent first *)
  files : gmap string (list ReportItem);
}.

Definition set_live (f : Recoverables -> Recoverables) (w : World) : World :=
  {| live := f (live w); grads := grads w; clock := clock w;
     checkpoints := checkpoints w; files := files w |}.

Definition set_grads (f : Grads -> Grads) (w : World) : World :=
  {| live := live w; grads := f (grads w); clock := clock w;
     checkpoints := checkpoints w; files := files w |}.

Definition set_checkpoints (f : list Ckpt -> list Ckpt) (w : World) : World :=
  {| live := live w; grads := grads w; clock := clock w;
     checkpoints := f (checkpoints w); files := files w |}.

Definition set_clock (n : nat) (w : World) : World :=
  {| live := live w; grads := grads w; clock := n;
     checkpoints := checkpoints w; files := files w |}.

Definition set_files (f : gmap string (list ReportItem) -> gmap string (list ReportItem))
    (w : World) : World :=
  {| live := live w; grads := grads w; clock := clock w;
     checkpoints := checkpoints w; files := f (files w) |}.

Definition set_model (m : Weights) (r : Recoverables) : Recoverables :=
  {| model := m; optimizer := optimizer r; scheduler := scheduler r;
     normalizer := normalizer r; counter := counter r |}.

Definition set_optimizer (o : OptState) (r : Recoverables) : Recoverables :=
  {| model := model r; optimizer := o; scheduler := scheduler r;
     normalizer := normalizer r; counter := counter r |}.

Definition set_scheduler (s : SchedState) (r : Recoverables) : Recoverables :=
  {| model := model r; optimizer := optimizer r; scheduler := s;
     normalizer := normalizer r; counter := counter r |}.

Definition set_normalizer (n : NormState) (r : Recoverables) : Recoverables :=
  {| model := model r; optimizer := optimizer r; scheduler := scheduler r;
     normalizer := n; counter := counter r |}.

Definition set_counter (c : nat) (r : Recoverables) : Recoverables :=
  {| model := model r; optimizer := optimizer r; scheduler := scheduler r;
     normalizer := normalizer r; counter := c |}.

(** ** Calls into torch and the library, as events *)

Inductive Event :=
| EAugmentation (wavs : Tensor) (wav_lens : Lens) (init_params : bool)
| EComputeFeatures (wavs : Tensor) (init_params : bool)
| ENormalize (feats : Tensor) (wav_lens : Lens)
| EEnc (feats : Tensor) (init_params : bool)
| ECtcLin (x : Tensor) (init_params : bool)
| ELogSoftmax (logits : Tensor)
| EPrependBos (phns : Labels)
| EEmb (y_in : Labels) (init_params : bool)
| EDec (e_in x : Tensor) (wav_lens : Lens) (init_params : bool)
| ESeqLin (h : Tensor) (init_params : bool)
| EGreedySearcher (x : Tensor) (wav_lens : Lens)
| EBeamSearcher (x : Tensor) (wav_lens : Lens)
| EAppendEos (phns : Labels) (length : Lens)
| ECtcCost (p_ctc : Tensor) (phns : Labels) (wav_lens phn_lens : Lens)
| ESeqCost (p_seq : Tensor) (phns_with_eos : Labels) (length : Lens)
| EConvertIndexToLab (batch : Hyps)
| EUndoPadding (phns : Labels) (phn_lens : Lens)
| EWerDetails (ids : list string)
| EBackward (loss : Scalar)
| EOptimizerStep
| EZeroGrad
| ESummarizeErrorRate
| ELrAnnealing (epoch : nat) (per : Q)
| ELogStats (stats_meta : list (string * Q))
| ESaveCheckpoint (per : Q)
| EDeleteCheckpoints (kept : list nat)
| ERecover (loaded : option Ckpt)
| EWerSummary
| EOpen (path : string)
| EPrintWerSummary
| EPrintAlignments.

(** ** The monad of the recipe: state, exceptions, and the calls made *)

Inductive Outcome (A : Type) :=
| Returns (a : A)
| Raises (e : Exn).
Global Arguments Returns {A} a.
Global Arguments Raises {A} e.

Definition M (A : Type) : Type := World -> Outcome A * World * list Event.

Definition M_ret {A} (a : A) : M A := fun w => (Returns a, w, []).

Definition M_bind {A B} (f : A -> M B) (m : M A) : M B := fun w =>
  match m w with
  | (Returns a, w1, t1) =>
      match f a w1 with
      | (r, w2, t2) => (r, w2, t1 ++ t2)
      end
  | (Raises e, w1, t1) => (Raises e, w1, t1)
  end.

Global Instance M_mret : MRet M := @M_ret.
Global Instance M_mbind : MBind M := @M_bind.

Definition raise {A} (e : Exn) : M A := fun w => (Raises e, w, []).

(** A call that reads the world and leaves it as it is. *)
Definition call {A} (e : Event) (f : World -> A) : M A :=
  fun w => (Returns (f w), w, [e]).

(** A call that also changes the world. *)
Definition call_upd {A} (e : Event) (f : World -> A * World) : M A :=
  fun w => (Returns (f w).1, (f w).2, [e]).

(** The parts of a run. *)
Definition outcome {A} (r : Outcome A * World * list Event) : Outcome A := r.1.1.
Definition final {A} (r : Outcome A * World * list Event) : World := r.1.2.
Definition trace {A} (r : Outcome A * World * list Event) : list Event := r.2.

Variable params : Params.
Variable lib : Library.

(** ** class ASR(sb.core.Brain) *)

Definition compute_forward (x : Inputs) (y : Targets) (stage : string)
    (init_params : bool) : M Predictions :=
  let '(ids, wavs, wav_lens) := x in
  let '(ids, phns, phn_lens) := y in
  (* the moves to [params.device] leave the values as they are *)
  wavs ← match augmentation params with
          | Some aug =>
              call (EAugmentation wavs wav_lens init_params)
                   (fun _ => aug wavs wav_lens init_params)
          | None => mret wavs
          end;
  feats ← call (EComputeFeatures wavs init_params)
               (fun _ => compute_features params wavs init_params);
  feats ← call_upd (ENormalize feats wav_lens)
            (fun w => let r := normalize params (normalizer (live w)) feats wav_lens in
                      (r.1, set_live (set_normalizer r.2) w));
  x ← call (EEnc feats init_params)
           (fun w => enc params (model (live w)) feats init_params);
  (* output layer for ctc log-probabilities *)
  logits ← call (ECtcLin x init_params)
                (fun w => ctc_lin params (model (live w)) x init_params);
  p_ctc ← call (ELogSoftmax logits) (fun _ => log_softmax params logits);
  (* Prepend bos token at the beginning *)
  y_in ← call (EPrependBos phns) (fun _ => prepend_bos_token lib phns (bos_index params));
  e_in ← call (EEmb y_in init_params)
              (fun w => emb params (model (live w)) y_in init_params);
  h ← call (EDec e_in x wav_lens init_params)
           (fun w => (dec params (model (live w)) e_in x wav_lens init_params).1);
  (* output layer for seq2seq log-probabilities *)
  logits ← call (ESeqLin h init_params)
                (fun w => seq_lin params (model (live w)) h init_params);
  p_seq ← call (ELogSoftmax logits) (fun _ => log_softmax params logits);
  if decide (stage = "valid") then
    hyps ← call (EGreedySearcher x wav_lens)
                (fun w => (greedy_searcher lib (model (live w)) x wav_lens).1);
    mret (Pred4 p_ctc p_seq wav_lens hyps)
  else if decide (stage = "test") then
    hyps ← call (EBeamSearcher x wav_lens)
                (fun w => (beam_searcher lib (model (live w)) x wav_lens).1);
    mret (Pred4 p_ctc p_seq wav_lens hyps)
  else
    mret (Pred3 p_ctc p_seq wav_lens).

(** The scalar computations of [compute_objectives]. *)
Definition abs_length_of (phns : Labels) (phn_lens : Lens) : Lens :=
  (fun l => torch_round (t_mul_int l (shape1 phns))) <$> phn_lens.

Definition rel_length_of (phns : Labels) (abs_length : Lens) : Lens :=
  (fun a => t_div_int (t_add_one a) (shape1 phns)) <$> abs_length.

Definition weighted_loss (loss_ctc loss_seq : Scalar) : Scalar :=
  t_add (t_scale (ctc_weight params) loss_ctc)
        (t_scale (py_one_minus (ctc_weight params)) loss_seq).

Definition compute_objectives (predictions : Predictions) (targets : Targets)
    (stage : string) : M (Scalar * gmap string StatVal) :=
  unpacked ←
    (if decide (stage = "train") then
       match predictions with
       | Pred3 p_ctc p_seq wav_lens => mret (p_ctc, p_seq, wav_lens, None)
       | Pred4 _ _ _ _ => raise (ValueError "too many values to unpack (expected 3)")
       end
     else
       match predictions with
       | Pred4 p_ctc p_seq wav_lens hyps => mret (p_ctc, p_seq, wav_lens, Some hyps)
       | Pred3 _ _ _ =>
           raise (ValueError "not enough values to unpack (expected 4, got 3)")
       end);
  let '(p_ctc, p_seq, wav_lens, hyps) := unpacked : Tensor * Tensor * Lens * option Hyps in
  let '(ids, phns, phn_lens) := targets in
  (* Add phn_lens by one for eos token *)
  let abs_length := abs_length_of phns phn_lens in
  (* Append eos token at the end of the label sequences *)
  phns_with_eos ← call (EAppendEos phns abs_length)
      (fun _ => append_eos_token lib phns abs_length (eos_index params));
  (* convert to speechbrain-style relative length *)
  let rel_length := rel_length_of phns abs_length in
  loss_ctc ← call (ECtcCost p_ctc phns wav_lens phn_lens)
      (fun _ => ctc_cost params p_ctc phns wav_lens phn_lens);
  loss_seq ← call (ESeqCost p_seq phns_with_eos rel_length)
      (fun _ => seq_cost params p_seq phns_with_eos rel_length);
  let loss := weighted_loss loss_ctc loss_seq in
  let stats : gmap string StatVal := ∅ in
  if decide (stage ≠ "train") then
    match hyps with
    | None => raise (UnboundLocalError "hyps")
    | Some hyps =>
        let ind2lab := index2lab params in
        sequence ← call (EConvertIndexToLab hyps)
            (fun _ => convert_index_to_lab lib hyps ind2lab);
        phns' ← call (EUndoPadding phns phn_lens) (fun _ => undo_padding lib phns phn_lens);
        phns'' ← call (EConvertIndexToLab phns')
            (fun _ => convert_index_to_lab lib phns' ind2lab);
        per_stats ← call (EWerDetails ids)
            (fun _ => wer_details_for_batch lib ids phns'' sequence true);
        mret (loss, <["PER" := SPer per_stats]> stats)
    end
  else mret (loss, stats).

Definition loss_backward (loss : Scalar) : M unit :=
  call_upd (EBackward loss)
    (fun w => (tt, set_grads (backward loss (model (live w))) w)).

Definition optimizer_step_call : M unit :=
  call_upd EOptimizerStep
    (fun w => let r := optimizer_step params (optimizer (live w)) (model (live w)) (grads w) in
              (tt, set_live (fun l => set_optimizer r.2 (set_model r.1 l)) w)).

Definition optimizer_zero_grad : M unit :=
  call_upd EZeroGrad (fun w => (tt, set_grads zero_grad w)).

Definition fit_batch (batch : Batch) : M (gmap string StatVal) :=
  let '(inputs, targets) := batch in
  predictions ← compute_forward inputs targets "train" false;
  r ← compute_objectives predictions targets "train";
  let '(loss, stats) := r : Scalar * gmap string StatVal in
  loss_backward loss;;
  optimizer_step_call;;
  optimizer_zero_grad;;
  mret (<["loss" := SLoss loss]> stats).

Definition evaluate_batch (batch : Batch) (stage : string) : M (gmap string StatVal) :=
  let '(inputs, targets) := batch in
  predictions ← compute_forward inputs targets stage false;
  r ← compute_objectives predictions targets stage;
  let '(loss, stats) := r : Scalar * gmap string StatVal in
  mret (<["loss" := SLoss loss]> stats).

(** *** The checkpointer *)

(** Modelled from the spec: [ckpt_recency], the importance key of the
    library for checkpoint recency, which is the save time. *)
Definition ckpt_recency (c : Ckpt) : Q := inject_Z (Z.of_nat (unixtime c)).

(** The second key the recipe passes: [lambda c: -c.meta["PER"]]. *)
Definition neg_PER (c : Ckpt) : Q := (- meta_PER c)%Q.

(** Modelled from the spec: the Checkpointer class (save with metadata,
    prune by ranking, restore), which lives in speechbrain.utils.checkpoints.
    A ranking selects the checkpoint with the greatest key; of equally ranked
    checkpoints the more recent one, which is the earlier in the list. *)
Fixpoint best_by (key : Ckpt -> Q) (l : list Ckpt) : option Ckpt :=
  match l with
  | [] => None
  | c :: l' =>
      match best_by key l' with
      | None => Some c
      | Some b => if Qle_bool (key b) (key c) then Some c else Some b
      end
  end.

(** Modelled from the spec: saving records the recoverables with the
    metadata, stamped with the current time. *)
Definition save_checkpoint (per : Q) : M unit :=
  call_upd (ESaveCheckpoint per)
    (fun w => let c := {| unixtime := clock w; meta_PER := per; saved := live w |} in
              (tt, set_clock (S (clock w)) (set_checkpoints (cons c) w))).

(** Modelled from the spec: the retention policy of the Checkpointer.  The
    keys are applied in sequence and each selects its checkpoint: the most
    recent one and the one of lowest error rate, for the two keys of the
    recipe. *)
Definition protected_by (keys : list (Ckpt -> Q)) (l : list Ckpt) : list Ckpt :=
  omap (fun key => best_by key l) keys.

(** Modelled from the spec: pruning of the Checkpointer discards all but the
    selected checkpoints; a checkpoint is known by its save time. *)
Definition keep_only (keys : list (Ckpt -> Q)) (l : list Ckpt) : list Ckpt :=
  filter (fun c => unixtime c ∈ unixtime <$> protected_by keys l) l.

(** Modelled from the spec: the pruning call of the Checkpointer. *)
Definition delete_checkpoints (keys : list (Ckpt -> Q)) : M unit :=
  fun w => (Returns tt, set_checkpoints (keep_only keys) w,
            [EDeleteCheckpoints (unixtime <$> keep_only keys (checkpoints w))]).

(** Modelled from the spec: [Checkpointer.save_and_keep_only], a save
    followed by the pruning. *)
Definition save_and_keep_only (per : Q) (importance_keys : list (Ckpt -> Q)) : M unit :=
  save_checkpoint per;;
  delete_checkpoints importance_keys.

(** Modelled from the spec: restoring loads the recoverables of the
    selected checkpoint, the most recent one when no key is given, and does
    nothing when there is no checkpoint. *)
Definition recover_if_possible (key : option (Ckpt -> Q)) : M unit :=
  fun w =>
    match best_by (default ckpt_recency key) (checkpoints w) with
    | Some c => (Returns tt, set_live (fun _ => saved c) w, [ERecover (Some c)])
    | None => (Returns tt, w, [ERecover None])
    end.

Definition on_epoch_end (epoch : nat) (train_stats : gmap string (list StatVal))
    (valid_stats : option (gmap string (list StatVal))) : M unit :=
  per_stats ← match valid_stats with
               | None => raise (TypeError "'NoneType' object is not subscriptable")
               | Some vs =>
                   match vs !! "PER" with
                   | Some l => mret l
                   | None => raise (KeyError "PER")
                   end
               end;
  per ← call ESummarizeErrorRate (fun _ => summarize_error_rate lib per_stats);
  lrs ← call_upd (ELrAnnealing epoch per)
          (fun w => let r := lr_annealing params (scheduler (live w))
                                          (optimizer (live w)) epoch per in
                    (r.1.1, set_live (fun l => set_scheduler r.1.2 (set_optimizer r.2 l)) w));
  let epoch_stats := [("epoch", inject_Z (Z.of_nat epoch)); ("lr", lrs.1)] in
  call (ELogStats epoch_stats) (fun _ => tt);;
  save_and_keep_only per [ckpt_recency; neg_PER].

(** *** The loops of the Brain base class *)

(** Modelled from the spec: the aggregated statistics of a data set hold,
    under each key, the per-batch values in order. *)
Definition add_stats (dataset_stats : gmap string (list StatVal))
    (batch_stats : gmap string StatVal) : gmap string (list StatVal) :=
  union_with (fun l1 l2 => Some (l1 ++ l2)) dataset_stats ((fun v => [v]) <$> batch_stats).

(** Modelled from the spec: the loops of the Brain base class process the
    batches one after the other and aggregate their statistics. *)
Fixpoint run_batches (step : Batch -> M (gmap string StatVal)) (batches : list Batch)
    (acc : gmap string (list StatVal)) : M (gmap string (list StatVal)) :=
  match batches with
  | [] => mret acc
  | b :: bs =>
      stats ← step b;
      run_batches step bs (add_stats acc stats)
  end.

(** Modelled from the spec: the evaluation loop of the Brain base class
    calls [evaluate_batch] with the test stage on each batch in turn. *)
Definition evaluate (test_set : list Batch) : M (gmap string (list StatVal)) :=
  run_batches (fun b => evaluate_batch b "test") test_set ∅.

(** Modelled from the spec: the training loop of the Brain base class.  An
    epoch fits every training batch, evaluates every validation batch and
    ends with [on_epoch_end]. *)
Fixpoint fit_epochs (remaining : nat) (train_set valid_set : list Batch) : M unit :=
  match remaining with
  | O => mret tt
  | S remaining' =>
      epoch ← (fun w => (Returns (S (counter (live w))),
                          set_live (set_counter (S (counter (live w)))) w, []));
      train_stats ← run_batches fit_batch train_set ∅;
      valid_stats ← run_batches (fun b => evaluate_batch b "valid") valid_set ∅;
      on_epoch_end epoch train_stats (Some valid_stats);;
      fit_epochs remaining' train_set valid_set
  end.

(** Modelled from the spec: [Brain.fit] runs the epochs the epoch counter
    has left. *)
Definition fit (train_set valid_set : list Batch) : M unit :=
  fun w => fit_epochs (number_of_epochs params - counter (live w)) train_set valid_set w.

(** ** The script, from the resume on

    Lines 187 to 203: the hyperparameter loading, the data preparation and
    the construction of the searchers, the checkpointer and the controller
    come before and are not part of the embedding. *)

Definition write_report (test_stats : gmap string (list StatVal)) : M unit :=
  per ← match test_stats !! "PER" with
         | Some l => mret l
         | None => raise (KeyError "PER")
         end;
  per_summary ← call EWerSummary (fun _ => wer_summary lib per);
  call_upd (EOpen (wer_file params))
    (fun w => (tt, set_files (insert (wer_file params) []) w));;
  call_upd EPrintWerSummary
    (fun w => (tt, set_files (alter (fun f => f ++ [RSummary per_summary]) (wer_file params)) w));;
  per' ← match test_stats !! "PER" with
          | Some l => mret l
          | None => raise (KeyError "PER")
          end;
  call_upd EPrintAlignments
    (fun w => (tt, set_files (alter (fun f => f ++ [RAlignments per']) (wer_file params)) w)).

Definition final_evaluation : M unit :=
  (* Load best checkpoint for evaluation *)
  recover_if_possible (Some neg_PER);;
  test_stats ← evaluate (test_loader params);
  (fun w => call (ELogStats [("Epoch loaded", inject_Z (Z.of_nat (counter (live w))))])
                 (fun _ => tt) w);;
  (* Write alignments to file *)
  write_report test_stats.

Definition run_experiment : M unit :=
  let train_set := train_loader params in
  let valid_set := valid_loader params in
  (* Load latest checkpoint to resume training *)
  recover_if_possible None;;
  fit train_set valid_set;;
  final_evaluation.

End Recipe.

(** ** Vocabulary for the statements *)

(** The stage tags of the recipe. *)
Inductive Stage := Train | Valid | Test.

Definition tag (s : Stage) : string :=
  match s with
  | Train => "train"
  | Valid => "valid"
  | Test => "test"
  end.

Section Vocabulary.

Context {Ar : Arith} {H : Torch} `{Scoring}.
Variable params : Params.
Variable lib : Library.

(** *** Kinds of events *)

Definition is_augmentation (e : Event) : bool :=
  match e with EAugmentation _ _ _ => true | _ => false end.

Definition is_features (e : Event) : bool :=
  match e with EComputeFeatures _ _ => true | _ => false end.

(** The decoders of the recipe are the greedy and the beam searcher.  (The
    attention decoder [dec] of the teacher-forced path is a layer of the
    model; it is called in every stage.) *)
Definition is_decoder (e : Event) : bool :=
  match e with EGreedySearcher _ _ | EBeamSearcher _ _ => true | _ => false end.

(** The three calls that change parameters, gradients or optimizer state. *)
Definition is_update (e : Event) : bool :=
  match e with EBackward _ | EOptimizerStep | EZeroGrad => true | _ => false end.

(** The calls of the final part of the script that are not made per batch. *)
Definition is_script_event (e : Event) : bool :=
  match e with
  | ERecover _ | ELogStats _ | EWerSummary | EOpen _ | EPrintWerSummary
  | EPrintAlignments | ESaveCheckpoint _ | EDeleteCheckpoints _ => true
  | _ => false
  end.

(** Some event of kind [p] is followed, later in the trace, by one of kind [q]. *)
Fixpoint occurs_before (p q : Event -> bool) (t : list Event) : bool :=
  match t with
  | [] => false
  | e :: t' => (p e && existsb q t') || occurs_before p q t'
  end.

(** *** The values that flow through [compute_forward] *)

Definition wavs_fed (wavs : Tensor) (wav_lens : Lens) (init_params : bool) : Tensor :=
  match augmentation params with
  | Some aug => aug wavs wav_lens init_params
  | None => wavs
  end.

Definition raw_feats (wavs : Tensor) (wav_lens : Lens) (init_params : bool) : Tensor :=
  compute_features params (wavs_fed wavs wav_lens init_params) init_params.

Definition normalized (w : World)
    (wavs : Tensor) (wav_lens : Lens) (init_params : bool) : Tensor * NormState :=
  normalize params (normalizer (live w)) (raw_feats wavs wav_lens init_params) wav_lens.

Definition enc_out (w : World)
    (wavs : Tensor) (wav_lens : Lens) (init_params : bool) : Tensor :=
  enc params (model (live w)) (normalized w wavs wav_lens init_params).1 init_params.

Definition ctc_logits (w : World)
    (wavs : Tensor) (wav_lens : Lens) (init_params : bool) : Tensor :=
  ctc_lin params (model (live w)) (enc_out w wavs wav_lens init_params) init_params.

Definition dec_input (w : World)
    (phns : Labels) (init_params : bool) : Tensor :=
  emb params (model (live w)) (prepend_bos_token lib phns (bos_index params)) init_params.

Definition dec_out (w : World)
    (wavs : Tensor) (wav_lens : Lens) (phns : Labels) (init_params : bool) : Tensor :=
  (dec params (model (live w)) (dec_input w phns init_params)
       (enc_out w wavs wav_lens init_params) wav_lens init_params).1.

Definition seq_logits (w : World)
    (wavs : Tensor) (wav_lens : Lens) (phns : Labels) (init_params : bool) : Tensor :=
  seq_lin params (model (live w)) (dec_out w wavs wav_lens phns init_params) init_params.

(** The world after a forward pass: only the normalizer statistics move. *)
Definition after_forward (w : World)
    (wavs : Tensor) (wav_lens : Lens) (init_params : bool) : World :=
  set_live (set_normalizer (normalized w wavs wav_lens init_params).2) w.

(** The calls of the acoustic path, in the order they are made. *)
Definition acoustic_events (w : World)
    (wavs : Tensor) (wav_lens : Lens) (init_params : bool) : list Event :=
  match augmentation params with
  | Some _ => [EAugmentation wavs wav_lens init_params]
  | None => []
  end ++
  [ EComputeFeatures (wavs_fed wavs wav_lens init_params) init_params;
    ENormalize (raw_feats wavs wav_lens init_params) wav_lens;
    EEnc (normalized w wavs wav_lens init_params).1 init_params;
    ECtcLin (enc_out w wavs wav_lens init_params) init_params;
    ELogSoftmax (ctc_logits w wavs wav_lens init_params) ].

(** The calls of the teacher-forced decoder path. *)
Definition decoder_events (w : World)
    (wavs : Tensor) (wav_lens : Lens) (phns : Labels) (init_params : bool) : list Event :=
  [ EPrependBos phns;
    EEmb (prepend_bos_token lib phns (bos_index params)) init_params;
    EDec (dec_input w phns init_params) (enc_out w wavs wav_lens init_params)
         wav_lens init_params;
    ESeqLin (dec_out w wavs wav_lens phns init_params) init_params;
    ELogSoftmax (seq_logits w wavs wav_lens phns init_params) ].

(** The search a stage tag selects, and the tuple that results. *)
Definition search_events (w : World)
    (wavs : Tensor) (wav_lens : Lens) (init_params : bool) (stage : string) : list Event :=
  if decide (stage = "valid") then
    [EGreedySearcher (enc_out w wavs wav_lens init_params) wav_lens]
  else if decide (stage = "test") then
    [EBeamSearcher (enc_out w wavs wav_lens init_params) wav_lens]
  else [].

Definition forward_result (w : World)
    (wavs : Tensor) (wav_lens : Lens) (phns : Labels) (init_params : bool)
    (stage : string) : Predictions :=
  let p_ctc := log_softmax params (ctc_logits w wavs wav_lens init_params) in
  let p_seq := log_softmax params (seq_logits w wavs wav_lens phns init_params) in
  let x := enc_out w wavs wav_lens init_params in
  if decide (stage = "valid") then
    Pred4 p_ctc p_seq wav_lens (greedy_searcher lib (model (live w)) x wav_lens).1
  else if decide (stage = "test") then
    Pred4 p_ctc p_seq wav_lens (beam_searcher lib (model (live w)) x wav_lens).1
  else Pred3 p_ctc p_seq wav_lens.

(** *** The values that flow through [compute_objectives] *)

(** The stage tag and the arity of the predictions agree, so that the tuple
    unpacks. *)
Definition unpacks (stage : string) (p : Predictions) : Prop :=
  match p with
  | Pred3 _ _ _ => stage = "train"
  | Pred4 _ _ _ _ => stage ≠ "train"
  end.

Definition pred_ctc (p : Predictions) : Tensor :=
  match p with Pred3 c _ _ | Pred4 c _ _ _ => c end.

Definition pred_seq (p : Predictions) : Tensor :=
  match p with Pred3 _ s _ | Pred4 _ s _ _ => s end.

Definition pred_lens (p : Predictions) : Lens :=
  match p with Pred3 _ _ l | Pred4 _ _ l _ => l end.

Definition pred_hyps (p : Predictions) : Hyps :=
  match p with Pred3 _ _ _ => [] | Pred4 _ _ _ h => h end.

Definition loss_ctc_of (p : Predictions) (targets : Targets) : Scalar :=
  ctc_cost params (pred_ctc p) targets.1.2 (pred_lens p) targets.2.

Definition phns_with_eos_of (targets : Targets) : Labels :=
  append_eos_token lib targets.1.2 (abs_length_of targets.1.2 targets.2) (eos_index params).

Definition loss_seq_of (p : Predictions) (targets : Targets) : Scalar :=
  seq_cost params (pred_seq p) (phns_with_eos_of targets)
           (rel_length_of targets.1.2 (abs_length_of targets.1.2 targets.2)).

(** The calls that compute the two losses. *)
Definition loss_events (p : Predictions) (targets : Targets) : list Event :=
  [ EAppendEos targets.1.2 (abs_length_of targets.1.2 targets.2);
    ECtcCost (pred_ctc p) targets.1.2 (pred_lens p) targets.2;
    ESeqCost (pred_seq p) (phns_with_eos_of targets)
             (rel_length_of targets.1.2 (abs_length_of targets.1.2 targets.2)) ].

(** The error statistics of a batch, computed outside the train stage. *)
Definition per_stats_of (p : Predictions) (targets : Targets) : list PerDetail :=
  wer_details_for_batch lib targets.1.1
    (convert_index_to_lab lib (undo_padding lib targets.1.2 targets.2) (index2lab params))
    (convert_index_to_lab lib (pred_hyps p) (index2lab params)) true.

Definition scoring_events (stage : string) (p : Predictions) (targets : Targets)
    : list Event :=
  if decide (stage ≠ "train") then
    [ EConvertIndexToLab (pred_hyps p);
      EUndoPadding targets.1.2 targets.2;
      EConvertIndexToLab (undo_padding lib targets.1.2 targets.2);
      EWerDetails targets.1.1 ]
  else [].

Definition objectives_stats (stage : string) (p : Predictions) (targets : Targets)
    : gmap string StatVal :=
  if decide (stage ≠ "train") then {[ "PER" := SPer (per_stats_of p targets) ]} else ∅.

(** *** The checkpoint store *)

(** Save times strictly decrease along the store and lie before the clock. *)
Definition store_ok (w : World) : Prop :=
  StronglySorted (fun a b => (unixtime b < unixtime a)%nat) (checkpoints w)
  ∧ Forall (fun c => (unixtime c < clock w)%nat) (checkpoints w).

(** *** The script *)

(** The world in which training starts: after the attempt to resume. *)
Definition resumed (w : World) : World := final (recover_if_possible None w).

(** The world after restoring the checkpoint a selection gives, if any. *)
Definition restored (selected : option Ckpt) (w : World) : World :=
  match selected with
  | Some c => set_live (fun _ => saved c) w
  | None => w
  end.

(** The calls made while batches are evaluated: none of the script's own,
    none that updates the model. *)
Definition is_batch_event (e : Event) : Prop :=
  is_update e = false /\ is_script_event e = false.

End Vocabulary.


(** ** A small concrete instance

    Tensors are integers, label batches are lists of rows, and every module
    is a simple arithmetic function, so that runs of the recipe can be
    evaluated.  The instance comes twice: in exact arithmetic, and on
    float32 scalars. *)

Module Demo.

#[local] Existing Instance exact_arith.

Definition demo_torch : @Torch exact_arith := {|
  Tensor := Z;
  Labels := list (list Z);
  shape1 := fun phns => match phns with [] => O | row :: _ => length row end;
  Weights := Z;
  Grads := Z;
  OptState := Z;
  SchedState := Z;
  NormState := Z;
  backward := fun loss theta g => (g + theta * Qfloor loss)%Z;
  zero_grad := fun _ => 0%Z;
|}.

Definition demo_scoring : Scoring := {|
  PerDetail := string * (list string * list string);
  WerSummary := nat;
|}.

#[local] Existing Instance demo_torch.
#[local] Existing Instance demo_scoring.

Definition count_details (l : list (@StatVal exact_arith demo_scoring)) : nat :=
  length (flat_map (fun v => match v with SPer d => d | SLoss _ => [] end) l).

Definition demo_prepend_bos (phns : list (list Z)) (bos : Z) : list (list Z) :=
  map (cons bos) phns.

Definition demo_append_eos (phns : list (list Z)) (len : Lens) (eos : Z) : list (list Z) :=
  zip_with (fun row a => <[Z.to_nat (Qfloor a) := eos]> (row ++ [0%Z])) phns len.

Definition demo_convert (batch : Hyps) (d : gmap Z string) : list (list string) :=
  map (fun row : list Z => map (fun i => default "?" (d !! i)) row) batch.

Definition demo_undo_padding (phns : list (list Z)) (len : Lens) : Hyps :=
  zip_with (fun row a =>
              take (Z.to_nat (round_half_even (a * inject_Z (Z.of_nat (length row))))) row)
           phns len.

Definition demo_wer_details (ids : list string) (refs hyps : list (list string))
    (compute_alignments : bool) : list (string * (list string * list string)) :=
  zip ids (zip refs hyps).

Definition demo_lib : @Library exact_arith demo_torch demo_scoring := {|
  prepend_bos_token := demo_prepend_bos;
  append_eos_token := demo_append_eos;
  greedy_searcher := fun (theta x : Z) _ => ([[3; 1]; [5]]%Z, (theta + x)%Z);
  beam_searcher := fun (theta x : Z) _ => ([[3; 1; 4]; [5; 2]]%Z, (theta * x)%Z);
  convert_index_to_lab := demo_convert;
  undo_padding := demo_undo_padding;
  wer_details_for_batch := demo_wer_details;
  summarize_error_rate := fun l => inject_Z (25 * Z.of_nat (count_details l));
  wer_summary := count_details;
|}.

Definition demo_inputs : Inputs := (["utt1"; "utt2"], 10%Z, [1; 3 # 4]%Q).

Definition demo_phns : list (list Z) := [[3; 1; 4; 1]; [5; 2; 0; 0]]%Z.

Definition demo_targets : Targets := (["utt1"; "utt2"], demo_phns, [1; 1 # 2]%Q).

Definition demo_batch : Batch := (demo_inputs, demo_targets).

(** The bundle, with or without an augmentation, for a given CTC weight. *)
Definition demo_params (with_augmentation : bool) (weight : Q) : @Params exact_arith demo_torch := {|
  augmentation :=
    if with_augmentation then Some (fun (wavs : Z) _ _ => (wavs * 2)%Z) else None;
  compute_features := fun (wavs : Z) _ => (wavs + 1)%Z;
  normalize := fun (st : Z) (feats : Z) _ => ((feats - st)%Z, (st + 1)%Z);
  enc := fun (theta feats : Z) _ => (theta * feats)%Z;
  ctc_lin := fun (theta x : Z) _ => (x + theta)%Z;
  log_softmax := fun (logits : Z) => (- logits)%Z;
  emb := fun (theta : Z) (y_in : list (list Z)) _ =>
    (theta + Z.of_nat (length y_in))%Z;
  dec := fun (theta e_in x : Z) _ _ => ((e_in + x)%Z, theta);
  seq_lin := fun (theta h : Z) _ => (h - theta)%Z;
  bos_index := 40;
  eos_index := 41;
  ctc_cost := fun (p_ctc : Z) _ _ _ => (inject_Z p_ctc / 4)%Q;
  seq_cost := fun (p_seq : Z) _ (len : Lens) => (inject_Z p_seq / 8 + foldr Qplus 0 len)%Q;
  ctc_weight := weight;
  optimizer_step := fun (o theta g : Z) => ((theta - g)%Z, (o + 1)%Z);
  lr_annealing := fun (s o : Z) _ per => ((1 # 10, 1 # 20)%Q, (s + 1)%Z, o);
  index2lab := {[ 1%Z := "ah"; 2%Z := "b"; 3%Z := "sil"; 4%Z := "k"; 5%Z := "t" ]};
  train_loader := [demo_batch];
  valid_loader := [demo_batch];
  test_loader := [demo_batch];
  number_of_epochs := 1;
  wer_file := "results/wer.txt";
|}.

(** The same bundle with other validation and test loaders. *)
Definition with_loaders (p : @Params exact_arith demo_torch) (valid test : list Batch)
    : @Params exact_arith demo_torch := {|
  augmentation := augmentation p;
  compute_features := compute_features p;
  normalize := normalize p;
  enc := enc p;
  ctc_lin := ctc_lin p;
  log_softmax := log_softmax p;
  emb := emb p;
  dec := dec p;
  seq_lin := seq_lin p;
  bos_index := bos_index p;
  eos_index := eos_index p;
  ctc_cost := ctc_cost p;
  seq_cost := seq_cost p;
  ctc_weight := ctc_weight p;
  optimizer_step := optimizer_step p;
  lr_annealing := lr_annealing p;
  index2lab := index2lab p;
  train_loader := train_loader p;
  valid_loader := valid;
  test_loader := test;
  number_of_epochs := number_of_epochs p;
  wer_file := wer_file p;
|}.

Definition demo_live : @Recoverables exact_arith demo_torch :=
  {| model := 2%Z; optimizer := 0%Z; scheduler := 0%Z; normalizer := 1%Z; counter := O |}.

Definition demo_world : @World exact_arith demo_torch demo_scoring :=
  {| live := demo_live; grads := 0%Z; clock := 7; checkpoints := []; files := ∅ |}.

(** A store with two earlier checkpoints, the older one with the lower
    error rate. *)
Definition demo_store : @World exact_arith demo_torch demo_scoring :=
  {| live := demo_live; grads := 0%Z; clock := 7;
     checkpoints :=
       [ {| unixtime := 5; meta_PER := 30; saved := set_model 5%Z demo_live |};
         {| unixtime := 3; meta_PER := 20; saved := set_model 3%Z demo_live |} ];
     files := ∅ |}.

(** Validation statistics of one batch with one utterance. *)
Definition demo_valid_stats : gmap string (list (@StatVal exact_arith demo_scoring)) :=
  {[ "PER" := [SPer [("utt1", (["sil"; "ah"], ["sil"]))]] ]}.

Definition demo_pred3 : @Predictions exact_arith demo_torch := Pred3 8%Z 16%Z [1; 3 # 4]%Q.
Definition demo_pred4 : @Predictions exact_arith demo_torch := Pred4 8%Z 16%Z [1; 3 # 4]%Q [[3; 1]; [5]]%Z.

End Demo.

(** ** The instance on float32 scalars *)

Module FloatDemo.

Import Demo.

#[local] Existing Instance ieee32.

(** The float32 nearest to [m * 2^e]. *)
Definition f32 (m e : Z) : spec_float :=
  binary_normalize Binary32.prec Binary32.emax m e false.

(** The whole part of a float32, towards minus infinity. *)
Definition f32_floor (x : spec_float) : Z :=
  match x with
  | S754_finite s m e => Z.shiftl (cond_Zopp s (Zpos m)) e
  | _ => 0%Z
  end.

Definition float_backward (loss : spec_float) (theta g : Z) : Z :=
  (g + theta * f32_floor loss)%Z.

Definition float_torch : @Torch ieee32 := {|
  Tensor := Z;
  Labels := list (list Z);
  shape1 := fun phns => match phns with [] => O | row :: _ => length row end;
  Weights := Z;
  Grads := Z;
  OptState := Z;
  SchedState := Z;
  NormState := Z;
  backward := float_backward;
  zero_grad := fun _ => 0%Z;
|}.

#[local] Existing Instance float_torch.
#[local] Existing Instance demo_scoring.

Definition float_append_eos (phns : list (list Z)) (len : list spec_float) (eos : Z)
    : list (list Z) :=
  zip_with (fun row a => <[Z.to_nat (f32_floor a) := eos]> (row ++ [0%Z])) phns len.

Definition float_undo_padding (phns : list (list Z)) (len : list spec_float) : Hyps :=
  zip_with (fun row a =>
              take (Z.to_nat (f32_floor
                      (Binary32.round (Binary32.mul a (Binary32.of_int (Z.of_nat (length row)))))))
                   row)
           phns len.

Definition float_count_details (l : list (@StatVal ieee32 demo_scoring)) : nat :=
  length (flat_map (fun v => match v with SPer d => d | SLoss _ => [] end) l).

Definition float_lib : @Library ieee32 float_torch demo_scoring := {|
  prepend_bos_token := demo_prepend_bos;
  append_eos_token := float_append_eos;
  greedy_searcher := fun (theta x : Z) _ => ([[3; 1]; [5]]%Z, (theta + x)%Z);
  beam_searcher := fun (theta x : Z) _ => ([[3; 1; 4]; [5; 2]]%Z, (theta * x)%Z);
  convert_index_to_lab := demo_convert;
  undo_padding := float_undo_padding;
  wer_details_for_batch := demo_wer_details;
  summarize_error_rate := fun l => inject_Z (25 * Z.of_nat (float_count_details l));
  wer_summary := float_count_details;
|}.

(** Relative label lengths 1.0 and 0.5: four and two labels in a width of
    four. *)
Definition float_targets : list string * list (list Z) * list spec_float :=
  (["utt1"; "utt2"], demo_phns, [f32 1 0; f32 1 (-1)]).

Definition float_pred3 : @Predictions ieee32 float_torch :=
  Pred3 8%Z 16%Z [f32 1 0; f32 3 (-2)].

(** A batch of one utterance: [n] labels in a row [width] wide, and its
    relative length, the float32 nearest to [n / width]. *)
Definition utterance_labels (width n : nat) : list (list Z) :=
  [replicate n 1%Z ++ replicate (width - n) 0%Z].

Definition utterance_lens (width n : nat) : list spec_float :=
  [Binary32.div (Binary32.of_int (Z.of_nat n)) (Binary32.of_int (Z.of_nat width))].

(** The bundle for a given CTC weight, with cost functions that return the
    given losses. *)
Definition float_params (weight loss_ctc loss_seq : spec_float)
    : @Params ieee32 float_torch := {|
  augmentation := @None (Z -> list spec_float -> bool -> Z);
  compute_features := fun (wavs : Z) _ => (wavs + 1)%Z;
  normalize := fun (st : Z) (feats : Z) _ => ((feats - st)%Z, (st + 1)%Z);
  enc := fun (theta feats : Z) _ => (theta * feats)%Z;
  ctc_lin := fun (theta x : Z) _ => (x + theta)%Z;
  log_softmax := fun (logits : Z) => (- logits)%Z;
  emb := fun (theta : Z) (y_in : list (list Z)) _ =>
    (theta + Z.of_nat (length y_in))%Z;
  dec := fun (theta e_in x : Z) _ _ => ((e_in + x)%Z, theta);
  seq_lin := fun (theta h : Z) _ => (h - theta)%Z;
  bos_index := 40;
  eos_index := 41;
  ctc_cost := fun _ _ _ _ => loss_ctc;
  seq_cost := fun _ _ _ => loss_seq;
  ctc_weight := weight;
  optimizer_step := fun (o theta g : Z) => ((theta - g)%Z, (o + 1)%Z);
  lr_annealing := fun (s o : Z) _ per => ((1 # 10, 1 # 20)%Q, (s + 1)%Z, o);
  index2lab := {[ 1%Z := "ah"; 2%Z := "b"; 3%Z := "sil"; 4%Z := "k"; 5%Z := "t" ]};
  train_loader := [];
  valid_loader := [];
  test_loader := [];
  number_of_epochs := 1;
  wer_file := "results/wer.txt";
|}.

Definition float_world : @World ieee32 float_torch demo_scoring :=
  {| live := {| model := 2%Z; optimizer := 0%Z; scheduler := 0%Z;
                normalizer := 1%Z; counter := O |};
     grads := 0%Z; clock := 7; checkpoints := []; files := ∅ |}.

End FloatDemo.
Section Forward.

Context {Ar : Arith} {H : Torch} `{Scoring}.
Variable params : Params.
Variable lib : Library.

Lemma compute_forward_run ids wavs wav_lens ids' phns phn_lens stage init_params
    (w : World) :
  compute_forward params lib (ids, wavs, wav_lens) (ids', phns, phn_lens) stage init_params w
  = (Returns (forward_result params lib w wavs wav_lens phns init_params stage),
     after_forward params w wavs wav_lens init_params,
     acoustic_events params w wavs wav_lens init_params
     ++ decoder_events params lib w wavs wav_lens phns init_params
     ++ search_events params w wavs wav_lens init_params stage).
Proof.
  unfold compute_forward, forward_result, search_events, acoustic_events.
  destruct (augmentation params) eqn:Haug.
  all: destruct (decide (stage = "valid")); [|destruct (decide (stage = "test"))].
  all: cbv [mbind mret M_mbind M_mret M_bind M_ret call call_upd fst snd].
  all: unfold decoder_events, seq_logits, dec_out, dec_input, ctc_logits, enc_out,
         after_forward, normalized, raw_feats, wavs_fed; rewrite ?Haug; simpl.
  all: try reflexivity.
Qed.

Lemma compute_objectives_run p targets stage (w : World) :
  unpacks stage p ->
  compute_objectives params lib p targets stage w
  = (Returns (weighted_loss params (loss_ctc_of params p targets)
                (loss_seq_of params lib p targets),
              objectives_stats params lib stage p targets),
     w,
     loss_events params lib p targets ++ scoring_events lib stage p targets).
Proof.
  destruct targets as [[ids phns] phn_lens].
  unfold compute_objectives, unpacks, objectives_stats, scoring_events.
  intros Hu.
  destruct p as [c s l|c s l h]; subst;
    (destruct (decide (_ = "train")) as [E|E]; [|]); try congruence;
    destruct (decide (_ ≠ "train")) as [E'|E']; try congruence.
  all: reflexivity.
Qed.

Lemma compute_objectives_mismatch p targets stage (w : World) :
  ~ unpacks stage p ->
  exists msg, compute_objectives params lib p targets stage w
              = (Raises (ValueError msg), w, []).
Proof.
  destruct targets as [[ids phns] phn_lens].
  unfold compute_objectives, unpacks. intros Hu.
  destruct p as [c s l|c s l h];
    destruct (decide (stage = "train")) as [E|E]; try (exfalso; apply Hu; assumption).
  all: eexists; reflexivity.
Qed.

End Forward.

(** ** Rounding on the rationals *)

Local Open Scope Q_scope.



Local Close Scope Q_scope.

(** ** Single-precision arithmetic *)

Lemma bounded_spec m e :
  bounded Binary32.prec Binary32.emax m e = true ->
  fexp Binary32.prec Binary32.emax (Zpos (digits2_pos m) + e) = e /\ (e <= 104)%Z.
Proof.
  unfold bounded, canonical_mantissa. intros Hb.
  apply andb_prop in Hb as [Hc He].
  apply Z.eqb_eq in Hc. apply Z.leb_le in He. split; [exact Hc | exact He].
Qed.

(** A mantissa in range is left as it is by the rounding. *)
Lemma shr_fexp_canonical m e :
  bounded Binary32.prec Binary32.emax m e = true ->
  shr_fexp Binary32.prec Binary32.emax (Zpos m) e loc_Exact
  = ({| shr_m := Zpos m; shr_r := false; shr_s := false |}, e).
Proof.
  intros Hb. destruct (bounded_spec m e Hb) as [Hc _].
  unfold shr_fexp. cbn [Zdigits2]. rewrite Hc, Z.sub_diag. reflexivity.
Qed.

Lemma digits2_pos_shift m :
  Zpos (digits2_pos (Pos.iter xO m 23)) = (Zpos (digits2_pos m) + 23)%Z.
Proof. cbn [Pos.iter digits2_pos]. lia. Qed.

(** The product of a mantissa with that of 1.0 is shifted back to it. *)
Lemma shr_fexp_shifted m e :
  bounded Binary32.prec Binary32.emax m e = true ->
  shr_fexp Binary32.prec Binary32.emax (Zpos (Pos.iter xO m 23)) (-23 + e) loc_Exact
  = ({| shr_m := Zpos m; shr_r := false; shr_s := false |}, e).
Proof.
  intros Hb. destruct (bounded_spec m e Hb) as [Hc _].
  unfold shr_fexp. cbn [Zdigits2]. rewrite digits2_pos_shift.
  replace (Z.pos (digits2_pos m) + 23 + (-23 + e))%Z
    with (Z.pos (digits2_pos m) + e)%Z by lia.
  rewrite Hc. replace (e - (-23 + e))%Z with 23%Z by lia.
  unfold shr, shr_record_of_loc. f_equal. lia.
Qed.

(** 1.0 times a float32 is that float32. *)
Lemma mul_one (x : spec_float) :
  Binary32.valid x = true ->
  Binary32.mul (Binary32.of_double py_one) x = x.
Proof.
  change (Binary32.of_double py_one) with (S754_finite false 8388608 (-23)).
  destruct x as [s | s | | s m e]; try reflexivity.
  unfold Binary32.valid. cbn [valid_binary]. intros Hb.
  unfold Binary32.mul, SFmul.
  change (8388608 * m)%positive with (Pos.iter xO m 23).
  unfold binary_round_aux.
  rewrite (shr_fexp_shifted m e Hb). cbn [shr_m loc_of_shr_record round_nearest_even].
  rewrite (shr_fexp_canonical m e Hb). cbn [shr_m xorb].
  destruct (bounded_spec m e Hb) as [_ He].
  apply Z.leb_le in He. change (Binary32.emax - Binary32.prec)%Z with 104%Z.
  rewrite He. reflexivity.
Qed.

(** 0.0 times a finite float32 is a zero; times an infinity or NaN it is
    NaN. *)
Lemma mul_zero (x : spec_float) :
  Binary32.mul (Binary32.of_double py_zero) x
  = if Binary32.is_finite x
    then S754_zero match x with S754_zero s | S754_finite s _ _ => s | _ => false end
    else S754_nan.
Proof. destruct x as [s | s | | s m e]; reflexivity. Qed.

Lemma add_zero_r (x : spec_float) (s : bool) :
  Binary32.same_number (Binary32.add x (S754_zero s)) x.
Proof.
  destruct x as [sx | sx | | sx m e]; try (left; reflexivity).
  right. destruct sx, s; eexists _, _; split; reflexivity.
Qed.

Lemma add_zero_l (x : spec_float) (s : bool) :
  Binary32.same_number (Binary32.add (S754_zero s) x) x.
Proof.
  destruct x as [sx | sx | | sx m e]; try (left; reflexivity).
  right. destruct sx, s; eexists _, _; split; reflexivity.
Qed.

Lemma add_nan_r (x : spec_float) : Binary32.add x S754_nan = S754_nan.
Proof. destruct x; reflexivity. Qed.

Lemma add_nan_l (x : spec_float) : Binary32.add S754_nan x = S754_nan.
Proof. destruct x; reflexivity. Qed.

(** With a weight of 1.0 the weighted sum is the first loss when the second
    is finite, and NaN when it is not. *)
Lemma weighted_sum_one (c s : spec_float) :
  let loss := Binary32.add (Binary32.mul (Binary32.of_double py_one) c)
                (Binary32.mul (Binary32.of_double (SFsub 53 1024 py_one py_one)) s) in
  Binary32.valid c = true ->
  (Binary32.is_finite s = true -> Binary32.same_number loss c)
  /\ (Binary32.is_finite s = false -> loss = S754_nan).
Proof.
  intros loss Hc. subst loss. rewrite (mul_one c Hc).
  change (SFsub 53 1024 py_one py_one) with py_zero.
  rewrite mul_zero. split; intros ->; [apply add_zero_r | apply add_nan_r].
Qed.

(** With a weight of 0.0 the weighted sum is the second loss when the first
    is finite, and NaN when it is not. *)
Lemma weighted_sum_zero (c s : spec_float) :
  let loss := Binary32.add (Binary32.mul (Binary32.of_double py_zero) c)
                (Binary32.mul (Binary32.of_double (SFsub 53 1024 py_one py_zero)) s) in
  Binary32.valid s = true ->
  (Binary32.is_finite c = true -> Binary32.same_number loss s)
  /\ (Binary32.is_finite c = false -> loss = S754_nan).
Proof.
  intros loss Hs. subst loss.
  change (SFsub 53 1024 py_one py_zero) with py_one.
  rewrite (mul_one s Hs), mul_zero.
  split; intros ->; [apply add_zero_l | apply add_nan_l].
Qed.

(** ** The loss on float32 tensors *)

Section FloatObjectives.

#[local] Existing Instance ieee32.

Context {H : Torch} `{Scoring}.
Variable params : Params.
Variable lib : Library.

(** C1: on float32 tensors, whenever the predictions unpack for the stage,
    [compute_objectives] returns, and the loss it returns is
    [ctc_weight * loss_ctc + (1 - ctc_weight) * loss_seq] with the
    difference taken on Python floats and the products and the sum rounded
    to float32, where [loss_ctc] is what [ctc_cost] gives and [loss_seq]
    what [seq_cost] gives.  With a weight of 1.0 this is the CTC loss when
    the sequence loss is finite, and NaN when the sequence loss is an
    infinity or NaN; with a weight of 0.0 it is the sequence loss when the
    CTC loss is finite, and NaN when it is not.  The loss is the same number
    as the one it equals: a zero may differ from it in sign.  When the
    predictions do not unpack, a ValueError is raised and no loss is
    returned. *)
Theorem compute_objectives_weighted_sum p targets stage (w : World) :
  let loss_ctc := loss_ctc_of params p targets in
  let loss_seq := loss_seq_of params lib p targets in
  let weight := ctc_weight params in
  let weighted :=
    Binary32.add
      (Binary32.mul (Binary32.of_double weight) loss_ctc)
      (Binary32.mul (Binary32.of_double (SFsub 53 1024 py_one weight)) loss_seq) in
  (unpacks stage p ->
   exists stats,
     outcome (compute_objectives params lib p targets stage w) = Returns (weighted, stats))
  /\ (forall loss stats,
        outcome (compute_objectives params lib p targets stage w) = Returns (loss, stats) ->
        loss = weighted
        /\ (weight = py_one -> Binary32.valid loss_ctc = true ->
            (Binary32.is_finite loss_seq = true -> Binary32.same_number loss loss_ctc)
            /\ (Binary32.is_finite loss_seq = false -> loss = S754_nan))
        /\ (weight = py_zero -> Binary32.valid loss_seq = true ->
            (Binary32.is_finite loss_ctc = true -> Binary32.same_number loss loss_seq)
            /\ (Binary32.is_finite loss_ctc = false -> loss = S754_nan)))
  /\ (~ unpacks stage p ->
      exists msg,
        outcome (compute_objectives params lib p targets stage w)
        = Raises (ValueError msg)).
Proof.
  intros loss_ctc loss_seq weight weighted. split; [|split].
  - intros Hu. rewrite (compute_objectives_run params lib _ _ _ _ Hu).
    eexists. reflexivity.
  - intros loss stats Hret.
    assert (Hu : unpacks stage p).
    { destruct p as [c s l|c s l h]; simpl;
        destruct (decide (stage = "train")) as [E|E]; try assumption.
      - destruct (compute_objectives_mismatch params lib (Pred3 c s l) targets stage w)
          as [msg Hm]; [exact E|]. rewrite Hm in Hret. discriminate.
      - destruct (compute_objectives_mismatch params lib (Pred4 c s l h) targets stage w)
          as [msg Hm]; [simpl; tauto|]. rewrite Hm in Hret. discriminate. }
    rewrite (compute_objectives_run params lib _ _ _ _ Hu) in Hret.
    unfold outcome in Hret. simpl in Hret. injection Hret as Hl _.
    assert (El : loss = weighted) by (subst loss; reflexivity).
    split; [exact El|]. rewrite El. subst weighted.
    split; intros Ew Hv; rewrite Ew.
    + exact (weighted_sum_one loss_ctc loss_seq Hv).
    + exact (weighted_sum_zero loss_ctc loss_seq Hv).
  - intros Hu.
    destruct (compute_objectives_mismatch params lib p targets stage w Hu) as [msg ->].
    exists msg. reflexivity.
Qed.

End FloatObjectives.

(** ** The forward pass *)

Section ForwardClaims.

Context {Ar : Arith} {H : Torch} `{Scoring}.
Variable params : Params.
Variable lib : Library.

Lemma acoustic_events_no_decoder (w : World) wavs wav_lens init_params :
  Forall (fun e => is_decoder e = false) (acoustic_events params w wavs wav_lens init_params).
Proof.
  unfold acoustic_events. destruct (augmentation params); repeat constructor.
Qed.

Lemma decoder_events_no_decoder (w : World) wavs wav_lens phns init_params :
  Forall (fun e => is_decoder e = false)
         (decoder_events params lib w wavs wav_lens phns init_params).
Proof. repeat constructor. Qed.

Lemma search_events_train (w : World) wavs wav_lens init_params stage :
  stage <> "valid" -> stage <> "test" ->
  search_events params w wavs wav_lens init_params stage = [].
Proof.
  intros Hv Ht. unfold search_events.
  destruct (decide (stage = "valid")); [congruence|].
  destruct (decide (stage = "test")); [congruence|]. reflexivity.
Qed.

Lemma forward_result_train (w : World) wavs wav_lens phns init_params stage :
  stage <> "valid" -> stage <> "test" ->
  forward_result params lib w wavs wav_lens phns init_params stage
  = Pred3 (log_softmax params (ctc_logits params w wavs wav_lens init_params))
          (log_softmax params (seq_logits params lib w wavs wav_lens phns init_params))
          wav_lens.
Proof.
  intros Hv Ht. unfold forward_result.
  destruct (decide (stage = "valid")); [congruence|].
  destruct (decide (stage = "test")); [congruence|]. reflexivity.
Qed.

Lemma compute_forward_run_train ids wavs wav_lens ids' phns phn_lens init_params
    (w : World) stage :
  stage <> "valid" -> stage <> "test" ->
  compute_forward params lib (ids, wavs, wav_lens) (ids', phns, phn_lens) stage init_params w
  = (Returns (Pred3 (log_softmax params (ctc_logits params w wavs wav_lens init_params))
                    (log_softmax params
                       (seq_logits params lib w wavs wav_lens phns init_params))
                    wav_lens),
     after_forward params w wavs wav_lens init_params,
     acoustic_events params w wavs wav_lens init_params
     ++ decoder_events params lib w wavs wav_lens phns init_params).
Proof.
  intros Hv Ht. rewrite compute_forward_run.
  rewrite (search_events_train _ _ _ _ _ Hv Ht), (forward_result_train _ _ _ _ _ _ Hv Ht).
  rewrite app_nil_r. reflexivity.
Qed.

(** C2: with the train tag [compute_forward] returns the three-tuple of CTC
    log-probabilities, sequence log-probabilities and lengths, and calls
    neither searcher; with the valid tag it makes the same calls and then
    the greedy searcher, whose hypotheses are the fourth element; with the
    test tag the same with the beam searcher.  The three tags are told
    apart by their runs, and every stage tag runs as one of the three. *)
Theorem compute_forward_stages ids wavs wav_lens ids' phns phn_lens init_params (w : World) :
  let run stage :=
    compute_forward params lib (ids, wavs, wav_lens) (ids', phns, phn_lens)
                    stage init_params w in
  let p_ctc := log_softmax params (ctc_logits params w wavs wav_lens init_params) in
  let p_seq := log_softmax params (seq_logits params lib w wavs wav_lens phns init_params) in
  let x := enc_out params w wavs wav_lens init_params in
  (outcome (run "train") = Returns (Pred3 p_ctc p_seq wav_lens)
   /\ Forall (fun e => is_decoder e = false) (trace (run "train")))
  /\ (outcome (run "valid")
      = Returns (Pred4 p_ctc p_seq wav_lens (greedy_searcher lib (model (live w)) x wav_lens).1)
      /\ trace (run "valid") = trace (run "train") ++ [EGreedySearcher x wav_lens])
  /\ (outcome (run "test")
      = Returns (Pred4 p_ctc p_seq wav_lens (beam_searcher lib (model (live w)) x wav_lens).1)
      /\ trace (run "test") = trace (run "train") ++ [EBeamSearcher x wav_lens])
  /\ (forall s s' : Stage, run (tag s) = run (tag s') -> s = s')
  /\ (forall stage, exists s : Stage, run stage = run (tag s)).
Proof.
  intros run p_ctc p_seq x. subst run. cbv beta.
  rewrite (compute_forward_run_train _ _ _ _ _ _ _ _ "train") by discriminate.
  split; [|split; [|split; [|split]]].
  - split; [reflexivity|]. unfold trace. cbn [snd].
    apply Forall_app; split; [apply acoustic_events_no_decoder|].
    apply decoder_events_no_decoder.
  - rewrite compute_forward_run. unfold search_events, forward_result.
    rewrite (decide_True (P := "valid" = "valid")) by reflexivity.
    split; [reflexivity|]. unfold trace. cbn [snd].
    rewrite <- app_assoc. reflexivity.
  - rewrite compute_forward_run. unfold search_events, forward_result.
    rewrite (decide_False (P := "test" = "valid")) by discriminate.
    rewrite (decide_True (P := "test" = "test")) by reflexivity.
    split; [reflexivity|]. unfold trace. cbn [snd].
    rewrite <- app_assoc. reflexivity.
  - intros s s' E. apply (f_equal trace) in E.
    rewrite !compute_forward_run in E. unfold trace in E. cbn [snd] in E.
    apply app_inv_head, app_inv_head in E. revert E. unfold search_events.
    destruct s, s'; try reflexivity; simpl tag;
      repeat (rewrite decide_True by reflexivity || rewrite decide_False by discriminate);
      discriminate.
  - intros stage.
    destruct (decide (stage = "valid")) as [->|Hv]; [exists Valid; reflexivity|].
    destruct (decide (stage = "test")) as [->|Ht]; [exists Test; reflexivity|].
    exists Train. simpl tag.
    rewrite (compute_forward_run_train _ _ _ _ _ _ _ _ stage Hv Ht).
    rewrite (compute_forward_run_train _ _ _ _ _ _ _ _ "train") by discriminate.
    reflexivity.
Qed.

(** C10: a stage tag other than valid and test, whatever it is, makes
    [compute_forward] run exactly as for train: it returns the three-tuple,
    raises nothing and calls no searcher. *)
Theorem compute_forward_other_stage ids wavs wav_lens ids' phns phn_lens init_params
    (w : World) stage :
  let run stage :=
    compute_forward params lib (ids, wavs, wav_lens) (ids', phns, phn_lens)
                    stage init_params w in
  stage <> "valid" -> stage <> "test" ->
  run stage = run "train"
  /\ outcome (run stage)
     = Returns (Pred3 (log_softmax params (ctc_logits params w wavs wav_lens init_params))
                      (log_softmax params
                         (seq_logits params lib w wavs wav_lens phns init_params))
                      wav_lens)
  /\ (forall e, outcome (run stage) <> Raises e)
  /\ Forall (fun e => is_decoder e = false) (trace (run stage)).
Proof.
  intros run Hv Ht. subst run. cbv beta.
  rewrite (compute_forward_run_train _ _ _ _ _ _ _ _ stage Hv Ht).
  rewrite (compute_forward_run_train _ _ _ _ _ _ _ _ "train") by discriminate.
  split; [reflexivity|]. split; [reflexivity|]. split; [discriminate|].
  unfold trace. cbn [snd].
  apply Forall_app; split; [apply acoustic_events_no_decoder|].
  apply decoder_events_no_decoder.
Qed.

Lemma rest_no_augmentation (w : World) wavs wav_lens phns init_params stage :
  Forall (fun e => is_augmentation e = false)
    ([ ENormalize (raw_feats params wavs wav_lens init_params) wav_lens;
       EEnc (normalized params w wavs wav_lens init_params).1 init_params;
       ECtcLin (enc_out params w wavs wav_lens init_params) init_params;
       ELogSoftmax (ctc_logits params w wavs wav_lens init_params) ]
     ++ decoder_events params lib w wavs wav_lens phns init_params
     ++ search_events params w wavs wav_lens init_params stage).
Proof.
  unfold search_events.
  destruct (decide (stage = "valid")); [|destruct (decide (stage = "test"))];
    repeat constructor.
Qed.

(** C9: when the bundle has an augmentation, [compute_forward] calls it on
    the input waveforms in every stage, whatever the tag, and the features
    are extracted from what it returns; when the bundle has none, no
    augmentation is called and the features are extracted from the input
    waveforms as they are. *)
Theorem augmentation_in_every_stage ids wavs wav_lens ids' phns phn_lens init_params
    (w : World) stage :
  let t := trace (compute_forward params lib (ids, wavs, wav_lens) (ids', phns, phn_lens)
                                  stage init_params w) in
  (forall aug, augmentation params = Some aug ->
     exists rest,
       t = EAugmentation wavs wav_lens init_params
           :: EComputeFeatures (aug wavs wav_lens init_params) init_params :: rest
       /\ Forall (fun e => is_augmentation e = false) rest)
  /\ (augmentation params = None ->
      exists rest,
        t = EComputeFeatures wavs init_params :: rest
        /\ Forall (fun e => is_augmentation e = false) t).
Proof.
  intros t. subst t. rewrite compute_forward_run. unfold trace. cbn [snd].
  pose proof (rest_no_augmentation w wavs wav_lens phns init_params stage) as Hrest.
  unfold acoustic_events, wavs_fed.
  unfold raw_feats, wavs_fed in Hrest.
  split.
  - intros aug Haug. rewrite Haug in *. eexists. split; [reflexivity|].
    unfold raw_feats, wavs_fed. rewrite Haug. exact Hrest.
  - intros Haug. rewrite Haug in *. eexists. split; [reflexivity|].
    constructor; [reflexivity|].
    unfold raw_feats, wavs_fed. rewrite Haug. exact Hrest.
Qed.

(** C4, as the code has it: in every stage the acoustic path calls the
    augmentation first, when the bundle has one, on the waveforms; then
    the feature extraction on the result; then the normalization, the
    encoder and the CTC projection, each on what the call before it
    returned. *)
Theorem acoustic_path_order ids wavs wav_lens ids' phns phn_lens init_params
    (w : World) stage :
  let wavs' := match augmentation params with
               | Some aug => aug wavs wav_lens init_params
               | None => wavs
               end in
  let feats := compute_features params wavs' init_params in
  let feats' := (normalize params (normalizer (live w)) feats wav_lens).1 in
  let x := enc params (model (live w)) feats' init_params in
  exists rest,
    trace (compute_forward params lib (ids, wavs, wav_lens) (ids', phns, phn_lens)
                           stage init_params w)
    = match augmentation params with
      | Some _ => [EAugmentation wavs wav_lens init_params]
      | None => []
      end
      ++ [ EComputeFeatures wavs' init_params;
           ENormalize feats wav_lens;
           EEnc feats' init_params;
           ECtcLin x init_params ]
      ++ rest.
Proof.
  intros wavs' feats feats' x. rewrite compute_forward_run. unfold trace. cbn [snd].
  eexists. unfold acoustic_events. rewrite <- !app_assoc. f_equal.
Qed.

End ForwardClaims.

(** ** Fitting and evaluating a batch *)

Section BatchClaims.

Context {Ar : Arith} {H : Torch} `{Scoring}.
Variable params : Params.
Variable lib : Library.

Lemma forward_events_no_update (w : World) wavs wav_lens phns init_params stage :
  Forall (fun e => is_update e = false)
    (acoustic_events params w wavs wav_lens init_params
     ++ decoder_events params lib w wavs wav_lens phns init_params
     ++ search_events params w wavs wav_lens init_params stage).
Proof.
  unfold acoustic_events, search_events.
  destruct (augmentation params);
    (destruct (decide (stage = "valid")); [|destruct (decide (stage = "test"))]);
    repeat constructor.
Qed.

Lemma objective_events_no_update p targets stage :
  Forall (fun e => is_update e = false)
    (loss_events params lib p targets ++ scoring_events lib stage p targets).
Proof.
  unfold scoring_events. destruct (decide (stage <> "train")); repeat constructor.
Qed.

Lemma forward_result_unpacks (w : World) wavs wav_lens phns init_params (s : Stage) :
  unpacks (tag s) (forward_result params lib w wavs wav_lens phns init_params (tag s)).
Proof.
  unfold forward_result.
  destruct s; simpl tag;
    repeat (rewrite decide_True by reflexivity || rewrite decide_False by discriminate);
    simpl; congruence.
Qed.

Lemma forward_result_not_unpacks (w : World) wavs wav_lens phns init_params stage :
  stage <> "train" -> stage <> "valid" -> stage <> "test" ->
  ~ unpacks stage (forward_result params lib w wavs wav_lens phns init_params stage).
Proof.
  intros Hn Hv Ht. rewrite forward_result_train by assumption. exact Hn.
Qed.

Lemma not_a_stage stage :
  (forall s : Stage, stage <> tag s) ->
  stage <> "train" /\ stage <> "valid" /\ stage <> "test".
Proof.
  intros Hs. split; [exact (Hs Train)|]. split; [exact (Hs Valid)|exact (Hs Test)].
Qed.

Lemma bind_run {A B} (m : M A) (f : A -> M B) (w : World) a w1 t1 :
  m w = (Returns a, w1, t1) ->
  (m ≫= f) w = ((f a w1).1.1, (f a w1).1.2, t1 ++ (f a w1).2).
Proof.
  intros Hm. unfold mbind, M_mbind, M_bind. rewrite Hm.
  destruct (f a w1) as [[r w2] t2]. reflexivity.
Qed.

Lemma bind_raise {A B} (m : M A) (f : A -> M B) (w : World) e w1 t1 :
  m w = (Raises e, w1, t1) ->
  (m ≫= f) w = (Raises e, w1, t1).
Proof.
  intros Hm. unfold mbind, M_mbind, M_bind. rewrite Hm. reflexivity.
Qed.

(** The run of [evaluate_batch] for one of the three stage tags. *)
Lemma evaluate_batch_run ids wavs wav_lens ids' phns phn_lens (s : Stage) (w : World) :
  let p := forward_result params lib w wavs wav_lens phns false (tag s) in
  let targets := (ids', phns, phn_lens) in
  evaluate_batch params lib ((ids, wavs, wav_lens), targets) (tag s) w
  = (Returns (<["loss" := SLoss (weighted_loss params (loss_ctc_of params p targets)
                                   (loss_seq_of params lib p targets))]>
                (objectives_stats params lib (tag s) p targets)),
     after_forward params w wavs wav_lens false,
     (acoustic_events params w wavs wav_lens false
      ++ decoder_events params lib w wavs wav_lens phns false
      ++ search_events params w wavs wav_lens false (tag s))
     ++ loss_events params lib p targets ++ scoring_events lib (tag s) p targets).
Proof.
  intros p targets. unfold evaluate_batch.
  erewrite bind_run by apply compute_forward_run.
  erewrite bind_run
    by (apply compute_objectives_run, forward_result_unpacks).
  cbn [fst snd]. unfold mret, M_mret, M_ret. cbn [fst snd].
  rewrite app_nil_r. reflexivity.
Qed.

(** The run of [evaluate_batch] for any other tag: the forward pass, then
    the unpacking of the three-tuple into four names fails. *)
Lemma evaluate_batch_raises ids wavs wav_lens ids' phns phn_lens stage (w : World) :
  let targets := (ids', phns, phn_lens) in
  (forall s : Stage, stage <> tag s) ->
  exists msg,
    evaluate_batch params lib ((ids, wavs, wav_lens), targets) stage w
    = (Raises (ValueError msg),
       after_forward params w wavs wav_lens false,
       (acoustic_events params w wavs wav_lens false
        ++ decoder_events params lib w wavs wav_lens phns false
        ++ search_events params w wavs wav_lens false stage) ++ []).
Proof.
  intros targets Hs. apply not_a_stage in Hs as (Hn & Hv & Ht).
  destruct (compute_objectives_mismatch params lib
              (forward_result params lib w wavs wav_lens phns false stage)
              (ids', phns, phn_lens) stage (after_forward params w wavs wav_lens false))
    as [msg Hm]; [apply forward_result_not_unpacks; assumption|].
  exists msg. unfold evaluate_batch.
  erewrite bind_run by apply compute_forward_run.
  erewrite bind_raise by exact Hm.
  reflexivity.
Qed.

Lemma stage_or_not stage : (exists s : Stage, stage = tag s) \/ (forall s : Stage, stage <> tag s).
Proof.
  destruct (decide (stage = "train")) as [->|Hn]; [left; exists Train; reflexivity|].
  destruct (decide (stage = "valid")) as [->|Hv]; [left; exists Valid; reflexivity|].
  destruct (decide (stage = "test")) as [->|Ht]; [left; exists Test; reflexivity|].
  right. intros []; assumption.
Qed.

(** C7: for each of the stages train, valid and test, [evaluate_batch]
    performs the forward computation and then the loss computation and
    returns the statistics with the loss; and whatever the stage tag, it
    calls no backward pass, no optimizer step and no gradient reset, and
    leaves the model weights, the optimizer state and the gradients as
    they were (of the whole state only the normalizer statistics move). *)
Theorem evaluate_batch_no_update (batch : Batch) (s : Stage) (stage : string) (w : World) :
  (let fwd := compute_forward params lib batch.1 batch.2 (tag s) false w in
   exists p loss stats,
     outcome fwd = Returns p
     /\ outcome (compute_objectives params lib p batch.2 (tag s) (final fwd))
        = Returns (loss, stats)
     /\ trace (evaluate_batch params lib batch (tag s) w)
        = trace fwd ++ trace (compute_objectives params lib p batch.2 (tag s) (final fwd))
     /\ outcome (evaluate_batch params lib batch (tag s) w)
        = Returns (<["loss" := SLoss loss]> stats))
  /\ (let r := evaluate_batch params lib batch stage w in
      Forall (fun e => is_update e = false) (trace r)
      /\ model (live (final r)) = model (live w)
      /\ optimizer (live (final r)) = optimizer (live w)
      /\ grads (final r) = grads w
      /\ exists n, final r = set_live (set_normalizer n) w).
Proof.
  destruct batch as [[[ids wavs] wav_lens] [[ids' phns] phn_lens]]. cbn [fst snd].
  split.
  - cbv zeta. rewrite evaluate_batch_run, compute_forward_run.
    unfold outcome, final, trace. cbn [fst snd].
    exists (forward_result params lib w wavs wav_lens phns false (tag s)).
    rewrite (compute_objectives_run params lib _ _ _ _
               (forward_result_unpacks w wavs wav_lens phns false s)).
    do 2 eexists. cbn [fst snd]. repeat split; reflexivity.
  - cbv zeta.
    destruct (stage_or_not stage) as [[s' ->]|Hs].
    + rewrite evaluate_batch_run. unfold trace, final. cbn [fst snd].
      split; [|repeat split; eexists; reflexivity].
      apply Forall_app; split;
        [apply forward_events_no_update|apply objective_events_no_update].
    + destruct (evaluate_batch_raises ids wavs wav_lens ids' phns phn_lens stage w Hs)
        as [msg ->].
      unfold trace, final. cbn [fst snd].
      split; [|repeat split; eexists; reflexivity].
      rewrite app_nil_r. apply forward_events_no_update.
Qed.

(** C3: [fit_batch] runs the forward computation for the train stage, then
    the loss computation, then the backward pass on that loss, then the
    optimizer step, then the gradient reset, in this order and nothing
    else; it returns the statistics holding the loss alone (the stage of
    [fit_batch] is train, so there are no error statistics); the weights
    and the optimizer state are what the optimizer step makes of the
    gradients of the backward pass, and the gradients end reset. *)
Theorem fit_batch_order (inputs : Inputs) (targets : Targets) (w : World) :
  let fwd := compute_forward params lib inputs targets "train" false w in
  let r := fit_batch params lib (inputs, targets) w in
  exists p loss,
    outcome fwd = Returns p
    /\ outcome (compute_objectives params lib p targets "train" (final fwd))
       = Returns (loss, ∅)
    /\ trace r
       = trace fwd
         ++ trace (compute_objectives params lib p targets "train" (final fwd))
         ++ [EBackward loss; EOptimizerStep; EZeroGrad]
    /\ Forall (fun e => is_update e = false)
         (trace fwd ++ trace (compute_objectives params lib p targets "train" (final fwd)))
    /\ outcome r = Returns (<["loss" := SLoss loss]> ∅)
    /\ (let w1 := final fwd in
        let g := backward loss (model (live w1)) (grads w1) in
        let stepped := optimizer_step params (optimizer (live w1)) (model (live w1)) g in
        model (live (final r)) = stepped.1
        /\ optimizer (live (final r)) = stepped.2
        /\ grads (final r) = zero_grad g).
Proof.
  destruct inputs as [[ids wavs] wav_lens], targets as [[ids' phns] phn_lens].
  intros fwd r. subst fwd r.
  pose proof (forward_result_unpacks w wavs wav_lens phns false Train) as Hu.
  simpl tag in Hu.
  exists (forward_result params lib w wavs wav_lens phns false "train").
  eexists.
  unfold fit_batch.
  erewrite bind_run by apply compute_forward_run.
  erewrite bind_run by (apply compute_objectives_run; exact Hu).
  rewrite compute_forward_run.
  unfold outcome, final, trace. cbn [fst snd].
  rewrite (compute_objectives_run params lib _ _ _ _ Hu). cbn [fst snd].
  unfold objectives_stats. rewrite decide_False by (intros E; apply E; reflexivity).
  split; [reflexivity|]. split; [reflexivity|].
  split; [|split; [|split; [|repeat split]]].
  - reflexivity.
  - apply Forall_app; split;
      [apply forward_events_no_update|apply objective_events_no_update].
  - reflexivity.
Qed.

End BatchClaims.

(** ** The checkpoint store *)

Section Store.

Context {Ar : Arith} {H : Torch}.

Lemma best_by_nil (key : Ckpt -> Q) (l : list Ckpt) : best_by key l = None <-> l = [].
Proof.
  destruct l as [|c l]; simpl; [tauto|].
  split; [|discriminate].
  destruct (best_by key l); [destruct (Qle_bool _ _)|]; discriminate.
Qed.

Lemma best_by_elem (key : Ckpt -> Q) (l : list Ckpt) (b : Ckpt) :
  best_by key l = Some b -> b ∈ l.
Proof.
  revert b. induction l as [|c l IH]; simpl; intros b Hb; [discriminate|].
  destruct (best_by key l) as [b'|].
  - destruct (Qle_bool (key b') (key c)); injection Hb as <-.
    + left.
    + right. apply IH. reflexivity.
  - injection Hb as <-. left.
Qed.

Lemma best_by_greatest (key : Ckpt -> Q) (l : list Ckpt) (b : Ckpt) :
  best_by key l = Some b -> forall c, c ∈ l -> (key c <= key b)%Q.
Proof.
  revert b. induction l as [|c l IH]; simpl; intros b Hb x Hx; [discriminate|].
  destruct (best_by key l) as [b'|] eqn:Hl.
  - destruct (Qle_bool (key b') (key c)) eqn:Hle; injection Hb as <-.
    + apply Qle_bool_iff in Hle.
      apply elem_of_cons in Hx as [->|Hx]; [apply Qle_refl|].
      apply Qle_trans with (key b'); [apply (IH b' eq_refl x Hx)|exact Hle].
    + assert (Hlt : (key c < key b')%Q).
      { apply Qnot_le_lt. intros Hc. apply Qle_bool_iff in Hc. congruence. }
      apply elem_of_cons in Hx as [->|Hx]; [apply Qlt_le_weak; exact Hlt|].
      apply (IH b' eq_refl x Hx).
  - injection Hb as <-. apply best_by_nil in Hl. subst l.
    apply elem_of_cons in Hx as [->|Hx]; [apply Qle_refl|].
    apply elem_of_nil in Hx. contradiction.
Qed.

(** A checkpoint saved after all the others is the most recent one. *)
Lemma best_by_recency_newest (c : Ckpt) (l : list Ckpt) :
  Forall (fun x => (unixtime x < unixtime c)%nat) l ->
  best_by ckpt_recency (c :: l) = Some c.
Proof.
  intros Hl. simpl. destruct (best_by ckpt_recency l) as [b|] eqn:Hb; [|reflexivity].
  assert (Hle : Qle_bool (ckpt_recency b) (ckpt_recency c) = true).
  { apply Qle_bool_iff. unfold ckpt_recency. rewrite <- Zle_Qle.
    apply best_by_elem in Hb. rewrite Forall_forall in Hl. specialize (Hl b Hb). lia. }
  rewrite Hle. reflexivity.
Qed.

(** In a store with strictly decreasing save times, a save time names one
    checkpoint. *)
Lemma filter_unixtime_single (l : list Ckpt) (b : Ckpt) :
  StronglySorted (fun x y => (unixtime y < unixtime x)%nat) l ->
  b ∈ l ->
  filter (fun c => unixtime c = unixtime b) l = [b].
Proof.
  induction l as [|c l IH]; intros Hs Hb; [apply elem_of_nil in Hb; contradiction|].
  apply StronglySorted_inv in Hs as [Hs Hc]. rewrite Forall_forall in Hc.
  apply elem_of_cons in Hb as [->|Hb].
  - rewrite filter_cons_True by reflexivity. f_equal.
    clear IH Hs. induction l as [|x l IH]; [reflexivity|].
    rewrite filter_cons_False.
    + apply IH. intros y Hy. apply Hc. right. exact Hy.
    + specialize (Hc x ltac:(left)). lia.
  - rewrite filter_cons_False; [apply IH; assumption|].
    specialize (Hc b Hb). lia.
Qed.

Lemma filter_unixtime_none (l : list Ckpt) (t : nat) :
  Forall (fun x => (unixtime x < t)%nat) l ->
  filter (fun c => unixtime c = t) l = [].
Proof.
  induction l as [|x l IH]; intros Hl; [reflexivity|].
  apply Forall_cons in Hl as [Hx Hl].
  rewrite filter_cons_False by lia. apply IH. exact Hl.
Qed.

Lemma filter_iff_elem {A} (P1 P2 : A -> Prop)
    `{!forall x, Decision (P1 x), !forall x, Decision (P2 x)} (l : list A) :
  (forall x, x ∈ l -> (P1 x <-> P2 x)) ->
  filter P1 l = filter P2 l.
Proof.
  induction l as [|a l IH]; intros Hiff; [reflexivity|].
  assert (IH' : filter P1 l = filter P2 l).
  { apply IH. intros x Hx. apply Hiff. right. exact Hx. }
  destruct (decide (P1 a)) as [Ha|Ha].
  - rewrite !filter_cons_True; [rewrite IH'; reflexivity| |exact Ha].
    apply (Hiff a); [left|exact Ha].
  - rewrite !filter_cons_False; [exact IH'| |exact Ha].
    intros Ha'. apply Ha. apply (Hiff a); [left|exact Ha'].
Qed.

(** What pruning with the two keys of the recipe keeps, right after a save. *)
Lemma keep_only_after_save (c : Ckpt) (l : list Ckpt) (best : Ckpt) :
  StronglySorted (fun x y => (unixtime y < unixtime x)%nat) l ->
  Forall (fun x => (unixtime x < unixtime c)%nat) l ->
  best_by neg_PER (c :: l) = Some best ->
  keep_only [ckpt_recency; neg_PER] (c :: l)
  = if decide (unixtime best = unixtime c) then [c] else [c; best].
Proof.
  intros Hs Hc Hb. unfold keep_only, protected_by.
  cbn [omap list_omap]. rewrite (best_by_recency_newest c l Hc), Hb.
  cbn [fmap list_fmap].
  rewrite filter_cons_True by left.
  pose proof (best_by_elem _ _ _ Hb) as Hin.
  pose proof Hc as Hc'. rewrite Forall_forall in Hc'.
  destruct (decide (unixtime best = unixtime c)) as [E|E]; f_equal.
  - rewrite <- (filter_unixtime_none l (unixtime c) Hc).
    apply filter_iff_elem. intros x Hx. rewrite E, !elem_of_cons.
    split; [|tauto].
    intros [?|[?|Hn]]; try assumption. apply elem_of_nil in Hn. contradiction.
  - apply elem_of_cons in Hin as [->|Hin]; [congruence|].
    rewrite <- (filter_unixtime_single l best Hs Hin).
    apply filter_iff_elem. intros x Hx. rewrite !elem_of_cons.
    split; [|tauto].
    intros [Hx'|[?|Hn]]; try assumption.
    + specialize (Hc' x Hx). lia.
    + apply elem_of_nil in Hn. contradiction.
Qed.

End Store.

(** ** The end of an epoch *)

Section EpochEnd.

Context {Ar : Arith} {H : Torch} `{Scoring}.
Variable params : Params.
Variable lib : Library.

Lemma on_epoch_end_run epoch train_stats valid_stats per_stats (w : World) :
  valid_stats !! "PER" = Some per_stats ->
  let per := summarize_error_rate lib per_stats in
  let annealed := lr_annealing params (scheduler (live w)) (optimizer (live w)) epoch per in
  let w1 := set_live (fun l => set_scheduler annealed.1.2 (set_optimizer annealed.2 l)) w in
  let c_new := {| unixtime := clock w; meta_PER := per; saved := live w1 |} in
  let kept := keep_only [ckpt_recency; neg_PER] (c_new :: checkpoints w) in
  on_epoch_end params lib epoch train_stats (Some valid_stats) w
  = (Returns tt,
     set_checkpoints (fun _ => kept) (set_clock (S (clock w)) w1),
     [ ESummarizeErrorRate; ELrAnnealing epoch per;
       ELogStats [("epoch", inject_Z (Z.of_nat epoch)); ("lr", annealed.1.1.1)];
       ESaveCheckpoint per; EDeleteCheckpoints (unixtime <$> kept) ]).
Proof.
  intros Hper. unfold on_epoch_end. rewrite Hper. reflexivity.
Qed.

Lemma store_ok_frame (w w' : World) :
  checkpoints w' = checkpoints w -> clock w' = clock w -> store_ok w -> store_ok w'.
Proof. unfold store_ok. intros -> ->. tauto. Qed.

(** The epoch end keeps the store well ordered. *)
Lemma on_epoch_end_store_ok epoch train_stats valid_stats per_stats (w : World) :
  valid_stats !! "PER" = Some per_stats ->
  store_ok w ->
  store_ok (final (on_epoch_end params lib epoch train_stats (Some valid_stats) w)).
Proof.
  intros Hper [Hsorted Hclock].
  rewrite (on_epoch_end_run epoch train_stats valid_stats per_stats w Hper).
  unfold final, store_ok.
  cbn [fst snd live set_checkpoints set_clock set_live checkpoints clock].
  set (c_new := {| unixtime := clock w; meta_PER := _; saved := _ |}).
  assert (Hnew : Forall (fun x => (unixtime x < unixtime c_new)%nat) (checkpoints w))
    by exact Hclock.
  destruct (best_by neg_PER (c_new :: checkpoints w)) as [best|] eqn:Hbest;
    [|apply best_by_nil in Hbest; discriminate].
  rewrite (keep_only_after_save c_new (checkpoints w) best Hsorted Hnew Hbest).
  pose proof (best_by_elem _ _ _ Hbest) as Hin.
  rewrite Forall_forall in Hclock.
  destruct (decide (unixtime best = unixtime c_new)) as [E|E].
  - split; repeat constructor.
  - apply elem_of_cons in Hin as [->|Hin]; [congruence|].
    specialize (Hclock best Hin). simpl in *.
    split; repeat constructor; simpl; lia.
Qed.

(** C5: at an epoch end with validation error statistics, [on_epoch_end]
    saves a checkpoint whose metadata is the summarized validation error
    rate, then prunes the store with the two keys [ckpt_recency] and
    negated error rate, in this order; what remains is the checkpoint just
    saved, which is the most recent, and the checkpoint of lowest recorded
    error rate, and nothing else. *)
Theorem on_epoch_end_checkpoints epoch train_stats valid_stats per_stats (w : World) :
  valid_stats !! "PER" = Some per_stats ->
  store_ok w ->
  let per := summarize_error_rate lib per_stats in
  let r := on_epoch_end params lib epoch train_stats (Some valid_stats) w in
  let c_new := {| unixtime := clock w; meta_PER := per; saved := live (final r) |} in
  outcome r = Returns tt
  /\ trace r
     = [ ESummarizeErrorRate; ELrAnnealing epoch per;
         ELogStats [("epoch", inject_Z (Z.of_nat epoch));
                    ("lr", (lr_annealing params (scheduler (live w)) (optimizer (live w))
                                         epoch per).1.1.1)];
         ESaveCheckpoint per;
         EDeleteCheckpoints (unixtime <$> checkpoints (final r)) ]
  /\ checkpoints (final r) = keep_only [ckpt_recency; neg_PER] (c_new :: checkpoints w)
  /\ best_by ckpt_recency (c_new :: checkpoints w) = Some c_new
  /\ (exists best,
        best_by neg_PER (c_new :: checkpoints w) = Some best
        /\ best ∈ c_new :: checkpoints w
        /\ (forall c, c ∈ c_new :: checkpoints w -> (meta_PER best <= meta_PER c)%Q)
        /\ checkpoints (final r)
           = if decide (unixtime best = unixtime c_new) then [c_new] else [c_new; best])
  /\ store_ok (final r).
Proof.
  intros Hper Hstore per r c_new. subst r c_new.
  pose proof (on_epoch_end_store_ok epoch train_stats valid_stats per_stats w Hper Hstore)
    as Hok.
  destruct Hstore as [Hsorted Hclock]. revert Hok.
  rewrite (on_epoch_end_run epoch train_stats valid_stats per_stats w Hper).
  unfold outcome, trace, final.
  cbn [fst snd live set_checkpoints set_clock set_live checkpoints clock]. fold per.
  set (c_new := {| unixtime := clock w; meta_PER := per; saved := _ |}).
  intros Hok.
  assert (Hnew : Forall (fun x => (unixtime x < unixtime c_new)%nat) (checkpoints w))
    by exact Hclock.
  destruct (best_by neg_PER (c_new :: checkpoints w)) as [best|] eqn:Hbest;
    [|apply best_by_nil in Hbest; discriminate].
  pose proof (keep_only_after_save c_new (checkpoints w) best Hsorted Hnew Hbest) as Hkeep.
  pose proof (best_by_elem _ _ _ Hbest) as Hin.
  split; [reflexivity|]. split; [reflexivity|]. split; [reflexivity|].
  split; [apply best_by_recency_newest; exact Hnew|].
  split.
  - exists best. split; [reflexivity|]. split; [exact Hin|]. split; [|exact Hkeep].
    intros c Hc. pose proof (best_by_greatest _ _ _ Hbest c Hc) as Hle.
    unfold neg_PER in Hle. lra.
  - exact Hok.
Qed.

End EpochEnd.

(** ** The evaluation loop and the end of the script *)

Section Script.

Context {Ar : Arith} {H : Torch} `{Scoring}.
Variable params : Params.
Variable lib : Library.

Lemma add_stats_lookup (acc : gmap string (list StatVal)) (stats : gmap string StatVal) k :
  add_stats acc stats !! k
  = union_with (fun l1 l2 => Some (l1 ++ l2)) (acc !! k) ((fun v => [v]) <$> stats !! k).
Proof.
  unfold add_stats. rewrite lookup_union_with, lookup_fmap. reflexivity.
Qed.

Lemma add_stats_keeps (acc : gmap string (list StatVal)) (stats : gmap string StatVal) k :
  is_Some (acc !! k) \/ is_Some (stats !! k) -> is_Some (add_stats acc stats !! k).
Proof.
  rewrite add_stats_lookup.
  intros [[l Hl]|[v Hv]].
  - rewrite Hl. destruct (stats !! k); simpl; eauto.
  - rewrite Hv. destruct (acc !! k); simpl; eauto.
Qed.

Lemma set_normalizer_same (w : World) :
  set_live (set_normalizer (normalizer (live w))) w = w.
Proof. destruct w as [[] ? ? ? ?]. reflexivity. Qed.

Lemma batch_events_forward (w : World) wavs wav_lens phns init_params stage :
  Forall is_batch_event
    (acoustic_events params w wavs wav_lens init_params
     ++ decoder_events params lib w wavs wav_lens phns init_params
     ++ search_events params w wavs wav_lens init_params stage).
Proof.
  unfold acoustic_events, search_events, is_batch_event.
  destruct (augmentation params);
    (destruct (decide (stage = "valid")); [|destruct (decide (stage = "test"))]);
    repeat constructor.
Qed.

Lemma batch_events_objectives p targets stage :
  Forall is_batch_event
    (loss_events params lib p targets ++ scoring_events lib stage p targets).
Proof.
  unfold scoring_events, is_batch_event.
  destruct (decide (stage <> "train")); repeat constructor.
Qed.

(** The loop over the batches of a data set, for the valid or the test
    stage: it returns, it moves nothing but the normalizer statistics, and
    the aggregated statistics hold the error statistics as soon as there
    is a batch. *)
Lemma run_batches_evaluate (s : Stage) (batches : list Batch)
    (acc : gmap string (list StatVal)) (w : World) :
  s <> Train ->
  exists stats n t,
    run_batches (fun b => evaluate_batch params lib b (tag s)) batches acc w
    = (Returns stats, set_live (set_normalizer n) w, t)
    /\ Forall is_batch_event t
    /\ (batches <> [] \/ is_Some (acc !! "PER") -> is_Some (stats !! "PER")).
Proof.
  intros Hs. revert acc w.
  induction batches as [|[[[ids wavs] wav_lens] [[ids' phns] phn_lens]] bs IH]; intros acc w.
  - exists acc, (normalizer (live w)), []. rewrite set_normalizer_same.
    split; [reflexivity|]. split; [constructor|].
    intros [Hne|Hacc]; [congruence|exact Hacc].
  - cbn [run_batches].
    set (p := forward_result params lib w wavs wav_lens phns false (tag s)).
    set (stats1 := <["loss" := SLoss (weighted_loss params
                                        (loss_ctc_of params p (ids', phns, phn_lens))
                                        (loss_seq_of params lib p (ids', phns, phn_lens)))]>
                     (objectives_stats params lib (tag s) p (ids', phns, phn_lens))).
    destruct (IH (add_stats acc stats1) (after_forward params w wavs wav_lens false))
      as (stats & n & t & Hrun & Ht & Hper).
    exists stats, n. eexists.
    erewrite bind_run by apply evaluate_batch_run.
    fold p stats1. rewrite Hrun. cbn [fst snd].
    split; [reflexivity|]. split.
    + apply Forall_app; split; [|exact Ht].
      apply Forall_app; split;
        [apply batch_events_forward|apply batch_events_objectives].
    + intros _. apply Hper. right. apply add_stats_keeps. right.
      unfold stats1, objectives_stats.
      rewrite decide_True by (destruct s; [congruence|discriminate|discriminate]).
      rewrite lookup_insert_ne by discriminate.
      rewrite lookup_singleton_eq. eauto.
Qed.

(** A fitted batch returns and leaves the checkpoint store alone. *)
Lemma fit_batch_returns (b : Batch) (w : World) :
  exists stats w' t,
    fit_batch params lib b w = (Returns stats, w', t)
    /\ checkpoints w' = checkpoints w /\ clock w' = clock w.
Proof.
  destruct b as [[[ids wavs] wav_lens] [[ids' phns] phn_lens]].
  pose proof (forward_result_unpacks params lib w wavs wav_lens phns false Train) as Hu.
  simpl tag in Hu.
  do 3 eexists. unfold fit_batch.
  erewrite bind_run by apply compute_forward_run.
  erewrite bind_run by (apply compute_objectives_run; exact Hu).
  cbn [fst snd]. split; [reflexivity|]. split; reflexivity.
Qed.

Lemma run_batches_fit (batches : list Batch) (acc : gmap string (list StatVal))
    (w : World) :
  exists stats w' t,
    run_batches (fit_batch params lib) batches acc w = (Returns stats, w', t)
    /\ checkpoints w' = checkpoints w /\ clock w' = clock w.
Proof.
  revert acc w. induction batches as [|b bs IH]; intros acc w.
  - exists acc, w, []. repeat split; reflexivity.
  - destruct (fit_batch_returns b w) as (stats1 & w1 & t1 & Hb & Hc1 & Hk1).
    destruct (IH (add_stats acc stats1) w1) as (stats & w' & t & Hrun & Hc & Hk).
    exists stats, w'. eexists. cbn [run_batches].
    erewrite bind_run by exact Hb. rewrite Hrun. cbn [fst snd].
    split; [reflexivity|]. split; congruence.
Qed.

(** With a validation set that is not empty, every epoch reaches its end
    with error statistics, the training loop returns, and the store stays
    well ordered. *)
Lemma fit_epochs_returns (remaining : nat) (w : World) :
  valid_loader params <> [] ->
  store_ok w ->
  exists w' t,
    fit_epochs params lib remaining (train_loader params) (valid_loader params) w
    = (Returns tt, w', t)
    /\ store_ok w'.
Proof.
  intros Hvalid. revert w. induction remaining as [|k IH]; intros w Hok.
  - exists w, []. split; [reflexivity|exact Hok].
  - set (w0 := set_live (set_counter (S (counter (live w)))) w).
    destruct (run_batches_fit (train_loader params) ∅ w0)
      as (train_stats & w1 & t1 & Htrain & Hc1 & Hk1).
    destruct (run_batches_evaluate Valid (valid_loader params) ∅ w1)
      as (valid_stats & n & t2 & Hval & _ & Hper); [discriminate|].
    destruct (Hper (or_introl Hvalid)) as [per_stats Hper'].
    set (w2 := set_live (set_normalizer n) w1) in *.
    assert (Hok2 : store_ok w2).
    { apply (store_ok_frame w w2); [| |exact Hok].
      - unfold w2. cbn [checkpoints set_live]. rewrite Hc1. reflexivity.
      - unfold w2. cbn [clock set_live]. rewrite Hk1. reflexivity. }
    pose proof (on_epoch_end_store_ok params lib (S (counter (live w))) train_stats
                  valid_stats per_stats w2 Hper' Hok2) as Hok3.
    pose proof (on_epoch_end_run params lib (S (counter (live w))) train_stats
                  valid_stats per_stats w2 Hper') as Hend.
    cbv zeta in Hend. rewrite Hend in Hok3. unfold final in Hok3. cbn [fst snd] in Hok3.
    destruct (IH _ Hok3) as (w' & t & Hrest & Hok').
    exists w'. eexists. cbn [fit_epochs].
    erewrite bind_run by reflexivity. cbn [fst snd]. fold w0.
    erewrite bind_run by exact Htrain. cbn [fst snd].
    erewrite bind_run by exact Hval. cbn [fst snd].
    erewrite bind_run by exact Hend. cbn [fst snd].
    rewrite Hrest. cbn [fst snd].
    split; [reflexivity|exact Hok'].
Qed.

Lemma fit_completes (w : World) :
  valid_loader params <> [] ->
  store_ok w ->
  outcome (fit params lib (train_loader params) (valid_loader params) w) = Returns tt
  /\ store_ok (final (fit params lib (train_loader params) (valid_loader params) w)).
Proof.
  intros Hvalid Hok. unfold fit.
  destruct (fit_epochs_returns (number_of_epochs params - counter (live w)) w Hvalid Hok)
    as (w' & t & -> & Hok').
  split; [reflexivity|exact Hok'].
Qed.

(** C6: once the training loop has completed, the script restores the
    checkpoint selected by the greatest negated error rate, which is a
    checkpoint of the store with the lowest recorded error rate; then it
    evaluates the test set, in the restored state; and only after that it
    summarizes the error statistics, opens the report file at the
    configured path and prints the summary and the alignments to it. *)
Theorem final_evaluation_order (w : World) :
  let train := fit params lib (train_loader params) (valid_loader params) (resumed w) in
  let w1 := final train in
  let selected := best_by neg_PER (checkpoints w1) in
  let r := run_experiment params lib w in
  outcome train = Returns tt ->
  test_loader params <> [] ->
  exists test_stats per w3 t_eval,
    evaluate params lib (test_loader params) (restored selected w1)
    = (Returns test_stats, w3, t_eval)
    /\ test_stats !! "PER" = Some per
    /\ Forall is_batch_event t_eval
    /\ trace r
       = trace (recover_if_possible None w) ++ trace train
         ++ [ERecover selected] ++ t_eval
         ++ [ ELogStats [("Epoch loaded", inject_Z (Z.of_nat (counter (live w3))))];
              EWerSummary; EOpen (wer_file params);
              EPrintWerSummary; EPrintAlignments ]
    /\ outcome r = Returns tt
    /\ files (final r) !! wer_file params
       = Some [RSummary (wer_summary lib per); RAlignments per]
    /\ (forall c, selected = Some c ->
          c ∈ checkpoints w1
          /\ live (restored selected w1) = saved c
          /\ forall c', c' ∈ checkpoints w1 -> (meta_PER c <= meta_PER c')%Q)
    /\ (selected = None <-> checkpoints w1 = []).
Proof.
  intros train w1 selected r Htrain Htest.
  destruct (run_batches_evaluate Test (test_loader params) ∅ (restored selected w1))
    as (test_stats & n & t_eval & Heval & Ht & Hper); [discriminate|].
  destruct (Hper (or_introl Htest)) as [per Hper'].
  exists test_stats, per, (set_live (set_normalizer n) (restored selected w1)), t_eval.
  split; [exact Heval|]. split; [exact Hper'|]. split; [exact Ht|].
  assert (Hrec : recover_if_possible (Some neg_PER) w1
                 = (Returns tt, restored selected w1, [ERecover selected])).
  { unfold recover_if_possible, restored, selected.
    change (default ckpt_recency (Some neg_PER)) with neg_PER.
    destruct (best_by neg_PER (checkpoints w1)); reflexivity. }
  assert (Hres : recover_if_possible None w
                 = (Returns tt, resumed w, trace (recover_if_possible None w))).
  { unfold resumed, final, trace, recover_if_possible.
    change (default ckpt_recency None) with ckpt_recency.
    destruct (best_by ckpt_recency (checkpoints w)); reflexivity. }
  assert (Hfit : train = (Returns tt, w1, trace train)).
  { unfold w1, final, trace, outcome in *. destruct train as [[o w'] t]. simpl in *.
    rewrite Htrain. reflexivity. }
  assert (Hrun : r = (Returns tt,
                      set_files (alter (fun f => f ++ [RAlignments per]) (wer_file params))
                        (set_files (alter (fun f => f ++ [RSummary (wer_summary lib per)])
                                          (wer_file params))
                           (set_files (insert (wer_file params) [])
                              (set_live (set_normalizer n) (restored selected w1)))),
                      trace (recover_if_possible None w) ++ trace train
                      ++ [ERecover selected] ++ t_eval
                      ++ [ ELogStats [("Epoch loaded",
                                       inject_Z (Z.of_nat (counter (live (restored selected w1)))))];
                           EWerSummary; EOpen (wer_file params);
                           EPrintWerSummary; EPrintAlignments ])).
  { unfold r, run_experiment. cbv zeta.
    erewrite bind_run by exact Hres.
    erewrite bind_run by exact Hfit.
    unfold final_evaluation.
    erewrite bind_run by exact Hrec.
    erewrite bind_run by exact Heval.
    unfold write_report. rewrite Hper'. reflexivity. }
  rewrite Hrun. unfold trace at 1, outcome, final. cbn [fst snd].
  split; [reflexivity|]. split; [reflexivity|]. split.
  - cbn [files set_files]. rewrite !lookup_alter_eq, lookup_insert_eq. reflexivity.
  - split.
    + intros c Hc. unfold selected in Hc. split; [exact (best_by_elem _ _ _ Hc)|].
      split; [unfold selected; rewrite Hc; reflexivity|].
      intros c' Hc'. pose proof (best_by_greatest _ _ _ Hc c' Hc') as Hle.
      unfold neg_PER in Hle. lra.
    + apply best_by_nil.
Qed.

End Script.

(** ** The claims on the concrete instance *)

Section Instances.

Import Demo.

#[local] Existing Instance exact_arith.
#[local] Existing Instance demo_torch.
#[local] Existing Instance demo_scoring.

Example round_half_even_ties :
  round_half_even (1 # 2) = 0%Z /\ round_half_even (3 # 2) = 2%Z
  /\ round_half_even (5 # 2) = 2%Z /\ round_half_even (- (1 # 2)) = 0%Z
  /\ round_half_even (7 # 4) = 2%Z.
Proof. repeat split; reflexivity. Qed.

Example abs_and_rel_length :
  abs_length_of demo_phns [1; 1 # 2]%Q = [4; 2]%Q
  /\ rel_length_of demo_phns [4; 2]%Q = [(4 + 1) / 4; (2 + 1) / 4]%Q.
Proof. split; reflexivity. Qed.

(** The train stage does not unpack a four-tuple, and a tag outside the
    three makes [evaluate_batch] raise after its forward pass. *)
Example compute_objectives_too_many :
  outcome (compute_objectives (demo_params true 1) demo_lib demo_pred4 demo_targets
                              "train" demo_world)
  = Raises (ValueError "too many values to unpack (expected 3)").
Proof. reflexivity. Qed.

Example compute_objectives_valid_stats :
  exists loss stats,
    outcome (compute_objectives (demo_params true 1) demo_lib demo_pred4 demo_targets
                                "valid" demo_world)
    = Returns (loss, stats)
    /\ stats !! "PER"
       = Some (SPer [ ("utt1", (["sil"; "ah"; "k"; "ah"], ["sil"; "ah"]));
                      ("utt2", (["t"; "b"], ["t"])) ]).
Proof. do 2 eexists. split; reflexivity. Qed.

Example evaluate_batch_unknown_stage :
  outcome (evaluate_batch (demo_params true 1) demo_lib demo_batch "Train" demo_world)
  = Raises (ValueError "not enough values to unpack (expected 4, got 3)").
Proof. reflexivity. Qed.

(** An epoch end on the two-checkpoint store with an error rate of 25:
    the new checkpoint (saved at 7) and the one of error rate 20 (saved at
    3) remain, the one of error rate 30 goes. *)
Example on_epoch_end_prunes :
  unixtime <$> checkpoints (final (on_epoch_end (demo_params true 1) demo_lib 1 ∅
                                                (Some demo_valid_stats) demo_store))
  = [7; 3]%nat.
Proof. reflexivity. Qed.

(** After one epoch from that store, which ends with an error rate of 50,
    the store holds the new checkpoint and the one saved at 3, and the
    selection by negated error rate is the one saved at 3. *)
Example run_experiment_restores_best :
  let w1 := final (fit (demo_params true (1 # 2)) demo_lib
                       (train_loader (demo_params true (1 # 2)))
                       (valid_loader (demo_params true (1 # 2)))
                       (resumed demo_store)) in
  unixtime <$> checkpoints w1 = [7; 3]%nat
  /\ unixtime <$> best_by neg_PER (checkpoints w1) = Some 3%nat
  /\ model (live (restored (best_by neg_PER (checkpoints w1)) w1)) = 3%Z.
Proof. vm_compute. repeat split. Qed.

(** C2 on the instance: the valid stage returns the hypotheses of the
    greedy searcher as fourth element. *)
Lemma compute_forward_stages_witness :
  outcome (compute_forward (demo_params true 1) demo_lib demo_inputs demo_targets
                           "valid" false demo_world)
  = Returns (Pred4 (-42)%Z (-42)%Z [1; 3 # 4]%Q [[3; 1]; [5]]%Z)
  /\ Valid = Valid.
Proof.
  destruct (compute_forward_stages (demo_params true 1) demo_lib
              ["utt1"; "utt2"] 10%Z [1; 3 # 4]%Q
              ["utt1"; "utt2"] demo_phns [1; 1 # 2]%Q
              false demo_world) as (_ & [Hvalid _] & _ & Hinj & _).
  split; [exact Hvalid|]. exact (Hinj Valid Valid eq_refl).
Defined.

(** C10 on the instance: the tags "Train" and "" run as "train" does. *)
Lemma compute_forward_other_stage_witness :
  "Train" <> "valid" /\ "Train" <> "test" /\ "" <> "valid" /\ "" <> "test"
  /\ compute_forward (demo_params true 1) demo_lib demo_inputs demo_targets
                     "Train" false demo_world
     = compute_forward (demo_params true 1) demo_lib demo_inputs demo_targets
                       "train" false demo_world
  /\ outcome (compute_forward (demo_params true 1) demo_lib demo_inputs demo_targets
                              "" false demo_world)
     = Returns (Pred3 (-42)%Z (-42)%Z [1; 3 # 4]%Q).
Proof.
  assert (H1 : "Train" <> "valid") by discriminate.
  assert (H2 : "Train" <> "test") by discriminate.
  assert (H3 : "" <> "valid") by discriminate.
  assert (H4 : "" <> "test") by discriminate.
  split; [exact H1|]. split; [exact H2|]. split; [exact H3|]. split; [exact H4|].
  split.
  - exact (proj1 (compute_forward_other_stage (demo_params true 1) demo_lib
                    ["utt1"; "utt2"] 10%Z [1; 3 # 4]%Q
                    ["utt1"; "utt2"] demo_phns [1; 1 # 2]%Q
                    false demo_world "Train" H1 H2)).
  - exact (proj1 (proj2 (compute_forward_other_stage (demo_params true 1) demo_lib
                    ["utt1"; "utt2"] 10%Z [1; 3 # 4]%Q
                    ["utt1"; "utt2"] demo_phns [1; 1 # 2]%Q
                    false demo_world "" H3 H4))).
Defined.

(** C9 on the instance: with the augmentation, the test stage extracts the
    features from the augmented waveforms; without it, from the input. *)
Lemma augmentation_in_every_stage_witness :
  (exists rest,
     trace (compute_forward (demo_params true 1) demo_lib demo_inputs demo_targets
                            "test" false demo_world)
     = EAugmentation 10%Z [1; 3 # 4]%Q false :: EComputeFeatures 20%Z false :: rest
     /\ Forall (fun e => is_augmentation e = false) rest)
  /\ (exists rest,
        trace (compute_forward (demo_params false 1) demo_lib demo_inputs demo_targets
                               "test" false demo_world)
        = EComputeFeatures 10%Z false :: rest
        /\ Forall (fun e => is_augmentation e = false)
             (trace (compute_forward (demo_params false 1) demo_lib demo_inputs
                                     demo_targets "test" false demo_world))).
Proof.
  split.
  - exact (proj1 (augmentation_in_every_stage (demo_params true 1) demo_lib
                    ["utt1"; "utt2"] 10%Z [1; 3 # 4]%Q
                    ["utt1"; "utt2"] demo_phns [1; 1 # 2]%Q
                    false demo_world "test") _ eq_refl).
  - exact (proj2 (augmentation_in_every_stage (demo_params false 1) demo_lib
                    ["utt1"; "utt2"] 10%Z [1; 3 # 4]%Q
                    ["utt1"; "utt2"] demo_phns [1; 1 # 2]%Q
                    false demo_world "test") eq_refl).
Defined.

(** C4 as claimed fails on the instance: with an augmentation in the
    bundle, the first call of the acoustic path is the augmentation, the
    feature extraction comes after it, and no augmentation comes after the
    feature extraction. *)
Lemma acoustic_path_order_counterexample :
  let t := trace (compute_forward (demo_params true 1) demo_lib demo_inputs demo_targets
                                  "train" false demo_world) in
  ~ (exists wavs init_params rest, t = EComputeFeatures wavs init_params :: rest)
  /\ occurs_before is_features is_augmentation t <> true
  /\ head t = Some (EAugmentation 10%Z [1; 3 # 4]%Q false)
  /\ occurs_before is_augmentation is_features t = true.
Proof.
  cbv zeta. split; [|split; [|split]].
  - intros (wavs & init_params & rest & E).
    apply (f_equal (fun t => match t with e :: _ => is_features e | [] => false end)) in E.
    vm_compute in E. discriminate E.
  - intros E. vm_compute in E. discriminate E.
  - vm_compute. reflexivity.
  - vm_compute. reflexivity.
Qed.

(** C5 on the instance: a store with two checkpoints, validation
    statistics with an error entry; the epoch end returns and leaves a
    well-ordered store holding what the two keys select. *)
Lemma on_epoch_end_checkpoints_witness :
  demo_valid_stats !! "PER" = Some [SPer [("utt1", (["sil"; "ah"], ["sil"]))]]
  /\ store_ok demo_store
  /\ outcome (on_epoch_end (demo_params true 1) demo_lib 1 ∅ (Some demo_valid_stats)
                           demo_store) = Returns tt
  /\ store_ok (final (on_epoch_end (demo_params true 1) demo_lib 1 ∅
                                   (Some demo_valid_stats) demo_store)).
Proof.
  assert (Hper : demo_valid_stats !! "PER" = Some [SPer [("utt1", (["sil"; "ah"], ["sil"]))]])
    by reflexivity.
  assert (Hstore : store_ok demo_store).
  { split; repeat constructor; simpl; lia. }
  split; [exact Hper|]. split; [exact Hstore|].
  destruct (on_epoch_end_checkpoints (demo_params true 1) demo_lib 1 ∅ demo_valid_stats
              _ demo_store Hper Hstore) as (Hret & _ & _ & _ & _ & Hok).
  split; [exact Hret|exact Hok].
Defined.

(** C6 on the instance: one epoch of training from the two-checkpoint
    store completes, the test set has a batch, and the report file ends up
    holding the summary and the alignments. *)
Lemma final_evaluation_order_witness :
  outcome (fit (demo_params true (1 # 2)) demo_lib
               (train_loader (demo_params true (1 # 2)))
               (valid_loader (demo_params true (1 # 2)))
               (resumed demo_store)) = Returns tt
  /\ test_loader (demo_params true (1 # 2)) <> []
  /\ exists per,
       files (final (run_experiment (demo_params true (1 # 2)) demo_lib demo_store))
         !! "results/wer.txt"
       = Some [RSummary (wer_summary demo_lib per); RAlignments per].
Proof.
  assert (Hfit : outcome (fit (demo_params true (1 # 2)) demo_lib
                              (train_loader (demo_params true (1 # 2)))
                              (valid_loader (demo_params true (1 # 2)))
                              (resumed demo_store)) = Returns tt)
    by (vm_compute; reflexivity).
  assert (Htest : test_loader (demo_params true (1 # 2)) <> []) by discriminate.
  split; [exact Hfit|]. split; [exact Htest|].
  destruct (final_evaluation_order (demo_params true (1 # 2)) demo_lib demo_store
              Hfit Htest)
    as (test_stats & per & w3 & t_eval & _ & _ & _ & _ & _ & Hfiles & _).
  exists per. exact Hfiles.
Defined.

End Instances.

(** ** The loss and the lengths on the float32 instance *)

Section FloatInstances.

Import Demo FloatDemo.

#[local] Existing Instance ieee32.
#[local] Existing Instance float_torch.
#[local] Existing Instance demo_scoring.

(** torch.round on float32: ties go to the even whole number, and the sign
    of a zero is kept. *)
Example float32_round_ties :
  Binary32.round <$> [f32 1 (-1); f32 3 (-1); f32 5 (-1); f32 (-1) (-1); f32 25 (-2); f32 15 (-2)]
  = [f32 0 0; f32 2 0; f32 2 0; S754_zero true; f32 6 0; f32 4 0].
Proof. reflexivity. Qed.

(** Single precision shows in the lengths: the float32 nearest to a sixth,
    times a width of three, is 0.5 and rounds to 0; a length of two over a
    width of three is 11184811 / 2^24; a width of zero gives an infinite
    length. *)
Example float32_lengths :
  abs_length_of [[7; 0; 0]]%Z [Binary32.div (f32 1 0) (f32 6 0)] = [S754_zero false]
  /\ rel_length_of [[7; 0; 0]]%Z [f32 1 0] = [S754_finite false 11184811 (-24)]
  /\ rel_length_of [[]] [S754_zero false] = [S754_infinity false].
Proof. repeat split; reflexivity. Qed.

(** C1 on the instance: with a weight of 1.0, a CTC loss of 2.0 and a
    sequence loss of 3.5, the loss returned for the train stage is 2.0; with
    a weight of 0.0 it is 3.5. *)
Lemma compute_objectives_weighted_sum_witness :
  let with_one := float_params py_one (f32 2 0) (f32 7 (-1)) in
  let with_zero := float_params py_zero (f32 2 0) (f32 7 (-1)) in
  unpacks "train" float_pred3
  /\ ctc_weight with_one = py_one
  /\ ctc_weight with_zero = py_zero
  /\ Binary32.valid (f32 2 0) = true
  /\ Binary32.valid (f32 7 (-1)) = true
  /\ Binary32.is_finite (f32 2 0) = true
  /\ Binary32.is_finite (f32 7 (-1)) = true
  /\ (exists loss stats,
        outcome (compute_objectives with_one float_lib float_pred3 float_targets
                                    "train" float_world)
        = Returns (loss, stats)
        /\ Binary32.same_number loss (f32 2 0))
  /\ (exists loss stats,
        outcome (compute_objectives with_zero float_lib float_pred3 float_targets
                                    "train" float_world)
        = Returns (loss, stats)
        /\ Binary32.same_number loss (f32 7 (-1))).
Proof.
  intros with_one with_zero.
  do 7 (split; [reflexivity|]). split.
  - destruct (compute_objectives_weighted_sum with_one float_lib float_pred3
                float_targets "train" float_world) as (Hret & Hloss & _).
    destruct (Hret eq_refl) as [stats Hs].
    eexists; exists stats. split; [exact Hs|].
    destruct (Hloss _ _ Hs) as (_ & Hone & _).
    exact (proj1 (Hone eq_refl eq_refl) eq_refl).
  - destruct (compute_objectives_weighted_sum with_zero float_lib float_pred3
                float_targets "train" float_world) as (Hret & Hloss & _).
    destruct (Hret eq_refl) as [stats Hs].
    eexists; exists stats. split; [exact Hs|].
    destruct (Hloss _ _ Hs) as (_ & _ & Hzero).
    exact (proj1 (Hzero eq_refl eq_refl) eq_refl).
Defined.

(** C1 as claimed fails on float32 tensors: with a weight of 1.0, a
    CTC loss of 2.0 and an infinite sequence loss, the loss returned is NaN,
    which is not the CTC loss; and with a weight of 0.0, an infinite CTC
    loss and a sequence loss of 3.5, it is NaN, which is not the sequence
    loss. *)
Lemma compute_objectives_weighted_sum_counterexample :
  let with_one := float_params py_one (f32 2 0) (S754_infinity false) in
  let with_zero := float_params py_zero (S754_infinity false) (f32 7 (-1)) in
  ctc_weight with_one = py_one
  /\ loss_ctc_of with_one float_pred3 float_targets = f32 2 0
  /\ loss_seq_of with_one float_lib float_pred3 float_targets = S754_infinity false
  /\ outcome (compute_objectives with_one float_lib float_pred3 float_targets
                                 "train" float_world)
     = Returns (S754_nan, ∅)
  /\ ~ Binary32.same_number S754_nan (f32 2 0)
  /\ ctc_weight with_zero = py_zero
  /\ loss_ctc_of with_zero float_pred3 float_targets = S754_infinity false
  /\ loss_seq_of with_zero float_lib float_pred3 float_targets = f32 7 (-1)
  /\ outcome (compute_objectives with_zero float_lib float_pred3 float_targets
                                 "train" float_world)
     = Returns (S754_nan, ∅)
  /\ ~ Binary32.same_number S754_nan (f32 7 (-1)).
Proof.
  intros with_one with_zero.
  do 4 (split; [reflexivity|]). split.
  { intros [E | (s & s' & E & _)]; discriminate E. }
  do 4 (split; [reflexivity|]).
  intros [E | (s & s' & E & _)]; discriminate E.
Qed.


End FloatInstances.

(** * Further properties of the recipe *)

(** ** More on rounding *)

Local Open Scope Q_scope.




Local Close Scope Q_scope.

(** ** The objectives *)

Section MoreObjectives.

Context {Ar : Arith} {H : Torch} `{Scoring}.
Variable params : Params.
Variable lib : Library.

Lemma unpacks_or_not stage (p : Predictions) : unpacks stage p \/ ~ unpacks stage p.
Proof.
  destruct p; simpl; destruct (decide (stage = "train")); tauto.
Qed.

(** X1: [compute_objectives] has no effect on the state, whether it returns
    or raises, and makes none of the calls that update the model or belong
    to the script. *)
Theorem compute_objectives_no_effect p targets stage (w : World) :
  final (compute_objectives params lib p targets stage w) = w
  /\ Forall is_batch_event (trace (compute_objectives params lib p targets stage w)).
Proof.
  destruct (unpacks_or_not stage p) as [Hu|Hu].
  - rewrite (compute_objectives_run params lib _ _ _ _ Hu).
    split; [reflexivity|]. unfold trace. cbn [snd].
    unfold scoring_events, is_batch_event.
    destruct (decide (stage <> "train")); repeat constructor.
  - destruct (compute_objectives_mismatch params lib p targets stage w Hu) as [msg ->].
    split; [reflexivity|constructor].
Qed.

(** X2: the loss does not depend on the stage, on the hypotheses or on the
    state: the four-tuple of a stage other than train gives the loss that
    the three-tuple of the same log-probabilities gives for train. *)
Theorem compute_objectives_loss_ignores_stage p_ctc p_seq wav_lens hyps targets stage
    (w w' : World) :
  stage <> "train" ->
  exists loss stats stats',
    outcome (compute_objectives params lib (Pred3 p_ctc p_seq wav_lens) targets "train" w)
    = Returns (loss, stats)
    /\ outcome (compute_objectives params lib (Pred4 p_ctc p_seq wav_lens hyps) targets
                                   stage w')
       = Returns (loss, stats').
Proof.
  intros Hs.
  rewrite (compute_objectives_run params lib (Pred3 p_ctc p_seq wav_lens) targets "train" w
             eq_refl).
  rewrite (compute_objectives_run params lib (Pred4 p_ctc p_seq wav_lens hyps) targets
             stage w' Hs).
  do 3 eexists. split; reflexivity.
Qed.

(** X3: the error statistics of a stage other than train are the details
    the edit-distance utility gives, under the ids of the targets, for the
    reference labels with their padding undone and the hypotheses of the
    predictions, both converted to label strings, with alignments; they
    are the only entry of the statistics.  For train the statistics are
    empty. *)
Theorem compute_objectives_stats p_ctc p_seq wav_lens hyps ids phns phn_lens stage
    (w : World) :
  stage <> "train" ->
  (exists loss,
     outcome (compute_objectives params lib (Pred4 p_ctc p_seq wav_lens hyps)
                                 (ids, phns, phn_lens) stage w)
     = Returns (loss,
                {[ "PER" := SPer (wer_details_for_batch lib ids
                                    (convert_index_to_lab lib (undo_padding lib phns phn_lens)
                                                          (index2lab params))
                                    (convert_index_to_lab lib hyps (index2lab params))
                                    true) ]}))
  /\ (exists loss,
        outcome (compute_objectives params lib (Pred3 p_ctc p_seq wav_lens)
                                    (ids, phns, phn_lens) "train" w)
        = Returns (loss, ∅)).
Proof.
  intros Hs. split.
  - rewrite (compute_objectives_run params lib (Pred4 p_ctc p_seq wav_lens hyps)
               (ids, phns, phn_lens) stage w Hs).
    eexists. unfold outcome. cbn [fst]. unfold objectives_stats.
    rewrite decide_True by exact Hs. reflexivity.
  - rewrite (compute_objectives_run params lib (Pred3 p_ctc p_seq wav_lens)
               (ids, phns, phn_lens) "train" w eq_refl).
    eexists. unfold outcome. cbn [fst]. unfold objectives_stats.
    rewrite decide_False by (intros E; apply E; reflexivity). reflexivity.
Qed.

End MoreObjectives.

(** ** The lengths, in exact arithmetic *)

Section Lengths.

#[local] Existing Instance exact_arith.

Context {H : Torch}.

Local Open Scope Q_scope.




End Lengths.

(** ** The forward pass and the batches *)

Section MoreBatches.

Context {Ar : Arith} {H : Torch} `{Scoring}.
Variable params : Params.
Variable lib : Library.

(** X7: of the targets the forward pass uses the labels only, and only for
    the sequence log-probabilities: the ids and the relative lengths of
    the labels play no part, and the CTC log-probabilities, the lengths,
    the hypotheses of the searchers and the state after the pass are the
    same whatever the targets are. *)
Theorem compute_forward_ignores_targets (x : Inputs) ids phns phn_lens ids' phns' phn_lens'
    stage init_params (w : World) :
  let r := compute_forward params lib x (ids, phns, phn_lens) stage init_params w in
  let r' := compute_forward params lib x (ids', phns', phn_lens') stage init_params w in
  (exists p p',
     outcome r = Returns p /\ outcome r' = Returns p'
     /\ pred_ctc p = pred_ctc p'
     /\ pred_lens p = pred_lens p'
     /\ pred_hyps p = pred_hyps p')
  /\ final r = final r'
  /\ (phns = phns' -> r = r').
Proof.
  destruct x as [[xids wavs] wav_lens]. cbv zeta.
  rewrite !compute_forward_run. unfold outcome, final. cbn [fst snd].
  split; [|split].
  - do 2 eexists. split; [reflexivity|]. split; [reflexivity|].
    unfold forward_result.
    destruct (decide (stage = "valid")); [|destruct (decide (stage = "test"))];
      repeat split; reflexivity.
  - reflexivity.
  - intros ->. reflexivity.
Qed.

(** X8: from one state, [evaluate_batch] returns the same loss for the
    three stages; for train the statistics hold the loss alone, for valid
    also the error statistics of the greedy hypotheses, for test those of
    the beam hypotheses, both searchers being run on the encoder output. *)
Theorem evaluate_batch_stats ids wavs wav_lens ids' phns phn_lens (w : World) :
  let batch : Batch := ((ids, wavs, wav_lens), (ids', phns, phn_lens)) in
  let x := enc_out params w wavs wav_lens false in
  let details hyps :=
    SPer (wer_details_for_batch lib ids'
            (convert_index_to_lab lib (undo_padding lib phns phn_lens) (index2lab params))
            (convert_index_to_lab lib hyps (index2lab params)) true) in
  exists loss,
    outcome (evaluate_batch params lib batch "train" w)
    = Returns {[ "loss" := SLoss loss ]}
    /\ outcome (evaluate_batch params lib batch "valid" w)
       = Returns (<["loss" := SLoss loss]>
                    {[ "PER" := details (greedy_searcher lib (model (live w)) x wav_lens).1 ]})
    /\ outcome (evaluate_batch params lib batch "test" w)
       = Returns (<["loss" := SLoss loss]>
                    {[ "PER" := details (beam_searcher lib (model (live w)) x wav_lens).1 ]}).
Proof.
  cbv zeta.
  pose proof (evaluate_batch_run params lib ids wavs wav_lens ids' phns phn_lens Train w)
    as Etrain.
  pose proof (evaluate_batch_run params lib ids wavs wav_lens ids' phns phn_lens Valid w)
    as Evalid.
  pose proof (evaluate_batch_run params lib ids wavs wav_lens ids' phns phn_lens Test w)
    as Etest.
  cbv zeta in Etrain, Evalid, Etest. simpl tag in Etrain, Evalid, Etest.
  rewrite Etrain, Evalid, Etest. unfold outcome. cbn [fst].
  unfold objectives_stats, forward_result, per_stats_of.
  rewrite (decide_False (P := "train" <> "train")) by (intros E; apply E; reflexivity).
  rewrite (decide_True (P := "valid" <> "train")) by discriminate.
  rewrite (decide_True (P := "test" <> "train")) by discriminate.
  rewrite (decide_False (P := "train" = "valid")) by discriminate.
  rewrite (decide_False (P := "train" = "test")) by discriminate.
  rewrite (decide_True (P := "valid" = "valid")) by reflexivity.
  rewrite (decide_False (P := "test" = "valid")) by discriminate.
  rewrite (decide_True (P := "test" = "test")) by reflexivity.
  eexists. split; [|split]; reflexivity.
Qed.

(** X9: [fit_batch] is [evaluate_batch] for the train stage followed by the
    backward pass, the optimizer step and the gradient reset: same
    statistics, the same calls and then these three, and the state of the
    evaluation with the three updates applied.  The checkpoint store, the
    clock, the files, the scheduler and the epoch counter are those of the
    start. *)
Theorem fit_batch_extends_evaluate (batch : Batch) (w : World) :
  let ev := evaluate_batch params lib batch "train" w in
  let r := fit_batch params lib batch w in
  exists loss,
    outcome ev = Returns {[ "loss" := SLoss loss ]}
    /\ outcome r = outcome ev
    /\ trace r = trace ev ++ [EBackward loss; EOptimizerStep; EZeroGrad]
    /\ (let w1 := final ev in
        let g := backward loss (model (live w1)) (grads w1) in
        let stepped := optimizer_step params (optimizer (live w1)) (model (live w1)) g in
        final r
        = set_grads (fun _ => zero_grad g)
            (set_live (fun l => set_optimizer stepped.2 (set_model stepped.1 l)) w1))
    /\ checkpoints (final r) = checkpoints w
    /\ clock (final r) = clock w
    /\ files (final r) = files w
    /\ scheduler (live (final r)) = scheduler (live w)
    /\ counter (live (final r)) = counter (live w).
Proof.
  destruct batch as [[[ids wavs] wav_lens] [[ids' phns] phn_lens]]. cbv zeta.
  pose proof (evaluate_batch_run params lib ids wavs wav_lens ids' phns phn_lens Train w)
    as Etrain.
  cbv zeta in Etrain. simpl tag in Etrain. rewrite Etrain.
  pose proof (forward_result_unpacks params lib w wavs wav_lens phns false Train) as Hu.
  simpl tag in Hu.
  unfold fit_batch.
  erewrite bind_run by apply compute_forward_run.
  erewrite bind_run by (apply compute_objectives_run; exact Hu).
  unfold outcome, trace, final. cbn [fst snd].
  unfold objectives_stats.
  rewrite (decide_False (P := "train" <> "train")) by (intros E; apply E; reflexivity).
  eexists. split; [reflexivity|]. split; [reflexivity|].
  split; [rewrite <- !app_assoc; reflexivity|].
  repeat split; reflexivity.
Qed.

(** X10: with a stage tag that is none of train, valid and test,
    [evaluate_batch] runs the whole forward pass, which moves the
    normalizer statistics, and then raises the ValueError of unpacking
    three values into four names; no loss is computed. *)
Theorem evaluate_batch_bad_stage (batch : Batch) stage (w : World) :
  stage <> "train" -> stage <> "valid" -> stage <> "test" ->
  let fwd := compute_forward params lib batch.1 batch.2 stage false w in
  let r := evaluate_batch params lib batch stage w in
  outcome r = Raises (ValueError "not enough values to unpack (expected 4, got 3)")
  /\ trace r = trace fwd
  /\ final r = final fwd
  /\ Forall (fun e => match e with
                      | EAppendEos _ _ | ECtcCost _ _ _ _ | ESeqCost _ _ _ => False
                      | _ => True
                      end) (trace r).
Proof.
  destruct batch as [[[ids wavs] wav_lens] [[ids' phns] phn_lens]].
  intros Hn Hv Ht. cbv zeta. cbn [fst snd].
  unfold evaluate_batch.
  erewrite bind_run by (apply compute_forward_run_train; assumption).
  rewrite (compute_forward_run_train params lib _ _ _ _ _ _ _ w stage Hv Ht).
  unfold compute_objectives. rewrite decide_False by exact Hn.
  unfold outcome, trace, final. cbn [fst snd]. rewrite app_nil_r.
  split; [reflexivity|]. split; [reflexivity|]. split; [reflexivity|].
  unfold acoustic_events. destruct (augmentation params); repeat constructor.
Qed.

End MoreBatches.

(** ** The end of an epoch, again *)

Section MoreEpochEnd.

Context {Ar : Arith} {H : Torch} `{Scoring}.
Variable params : Params.
Variable lib : Library.

(** X11: without validation statistics (the default of the argument)
    [on_epoch_end] raises a TypeError, and with statistics that have no
    error entry a KeyError; in both cases before any call: the learning
    rate is not annealed, nothing is logged and no checkpoint is saved. *)
Theorem on_epoch_end_without_error_stats epoch train_stats (w : World) :
  on_epoch_end params lib epoch train_stats None w
  = (Raises (TypeError "'NoneType' object is not subscriptable"), w, [])
  /\ (forall valid_stats : gmap string (list StatVal),
        valid_stats !! "PER" = None ->
        on_epoch_end params lib epoch train_stats (Some valid_stats) w
        = (Raises (KeyError "PER"), w, [])).
Proof.
  split; [reflexivity|].
  intros valid_stats Hnone. unfold on_epoch_end. rewrite Hnone. reflexivity.
Qed.

(** X12: an epoch end that finds its error statistics changes the
    optimizer and the scheduler as the annealing says, adds to the
    checkpoint store and advances the clock by one save; it leaves the
    weights, the gradients, the normalizer statistics, the epoch counter
    and the files as they were, and makes no call that updates them. *)
Theorem on_epoch_end_frame epoch train_stats valid_stats per_stats (w : World) :
  valid_stats !! "PER" = Some per_stats ->
  let r := on_epoch_end params lib epoch train_stats (Some valid_stats) w in
  let annealed := lr_annealing params (scheduler (live w)) (optimizer (live w)) epoch
                               (summarize_error_rate lib per_stats) in
  scheduler (live (final r)) = annealed.1.2
  /\ optimizer (live (final r)) = annealed.2
  /\ model (live (final r)) = model (live w)
  /\ normalizer (live (final r)) = normalizer (live w)
  /\ counter (live (final r)) = counter (live w)
  /\ grads (final r) = grads w
  /\ files (final r) = files w
  /\ clock (final r) = S (clock w)
  /\ Forall (fun e => is_update e = false) (trace r).
Proof.
  intros Hper. cbv zeta.
  rewrite (on_epoch_end_run params lib epoch train_stats valid_stats per_stats w Hper).
  unfold final, trace. cbn [fst snd].
  repeat split; repeat constructor.
Qed.

(** X13: in a well-ordered store, resuming right after an epoch end loads
    the checkpoint that epoch end saved and gives back the very state the
    epoch ended in: the save comes after the annealing, so the annealed
    optimizer and scheduler are part of it. *)
Theorem resume_after_epoch_end epoch train_stats valid_stats per_stats (w : World) :
  valid_stats !! "PER" = Some per_stats ->
  store_ok w ->
  let w' := final (on_epoch_end params lib epoch train_stats (Some valid_stats) w) in
  let c_new := {| unixtime := clock w;
                  meta_PER := summarize_error_rate lib per_stats;
                  saved := live w' |} in
  recover_if_possible None w' = (Returns tt, w', [ERecover (Some c_new)]).
Proof.
  intros Hper [Hsorted Hclock]. cbv zeta.
  rewrite (on_epoch_end_run params lib epoch train_stats valid_stats per_stats w Hper).
  unfold final. cbn [fst snd live set_checkpoints set_clock set_live].
  set (c_new := {| unixtime := clock w; meta_PER := _; saved := _ |}).
  assert (Hnew : Forall (fun x => (unixtime x < unixtime c_new)%nat) (checkpoints w))
    by exact Hclock.
  destruct (best_by neg_PER (c_new :: checkpoints w)) as [best|] eqn:Hbest;
    [|apply best_by_nil in Hbest; discriminate].
  pose proof (keep_only_after_save c_new (checkpoints w) best Hsorted Hnew Hbest) as Hkeep.
  assert (Hrec : best_by ckpt_recency (keep_only [ckpt_recency; neg_PER]
                                                 (c_new :: checkpoints w)) = Some c_new).
  { rewrite Hkeep. destruct (decide (unixtime best = unixtime c_new)) as [E|E].
    - reflexivity.
    - apply best_by_recency_newest. constructor; [|constructor].
      apply best_by_elem in Hbest. apply elem_of_cons in Hbest as [->|Hin]; [congruence|].
      rewrite Forall_forall in Hnew. exact (Hnew best Hin). }
  unfold recover_if_possible. change (default ckpt_recency None) with ckpt_recency.
  cbn [checkpoints set_checkpoints set_clock set_live]. rewrite Hrec. reflexivity.
Qed.

End MoreEpochEnd.

(** ** The report and the end of the script, again *)

Section MoreScript.

Context {Ar : Arith} {H : Torch} `{Scoring}.
Variable params : Params.
Variable lib : Library.

Lemma write_report_run (test_stats : gmap string (list StatVal)) per (w : World) :
  test_stats !! "PER" = Some per ->
  write_report params lib test_stats w
  = (Returns tt,
     set_files (alter (fun f => f ++ [RAlignments per]) (wer_file params))
       (set_files (alter (fun f => f ++ [RSummary (wer_summary lib per)]) (wer_file params))
          (set_files (insert (wer_file params) []) w)),
     [EWerSummary; EOpen (wer_file params); EPrintWerSummary; EPrintAlignments]).
Proof.
  intros Hper. unfold write_report. rewrite Hper. reflexivity.
Qed.

Lemma write_report_raises (test_stats : gmap string (list StatVal)) (w : World) :
  test_stats !! "PER" = None ->
  write_report params lib test_stats w = (Raises (KeyError "PER"), w, []).
Proof.
  intros Hper. unfold write_report. rewrite Hper. reflexivity.
Qed.

(** X14: with error statistics, writing the report replaces whatever the
    file at the configured path held by the summary followed by the
    alignments, and touches no other file and nothing else of the state. *)
Theorem write_report_overwrites (test_stats : gmap string (list StatVal)) per (w : World) :
  test_stats !! "PER" = Some per ->
  let r := write_report params lib test_stats w in
  outcome r = Returns tt
  /\ trace r = [EWerSummary; EOpen (wer_file params); EPrintWerSummary; EPrintAlignments]
  /\ files (final r) !! wer_file params
     = Some [RSummary (wer_summary lib per); RAlignments per]
  /\ (forall path, path <> wer_file params -> files (final r) !! path = files w !! path)
  /\ live (final r) = live w
  /\ grads (final r) = grads w
  /\ checkpoints (final r) = checkpoints w.
Proof.
  intros Hper. cbv zeta. rewrite (write_report_run test_stats per w Hper).
  unfold outcome, trace, final. cbn [fst snd files set_files].
  split; [reflexivity|]. split; [reflexivity|]. split; [|split; [|repeat split]].
  - rewrite !lookup_alter_eq, lookup_insert_eq. reflexivity.
  - intros path Hpath.
    rewrite !lookup_alter_ne, lookup_insert_ne by congruence. reflexivity.
Qed.

(** X15: without error statistics, writing the report raises the KeyError
    before the file is opened: no call is made and an earlier report stays
    as it is. *)
Theorem write_report_without_error_stats (test_stats : gmap string (list StatVal))
    (w : World) :
  test_stats !! "PER" = None ->
  write_report params lib test_stats w = (Raises (KeyError "PER"), w, []).
Proof.
  exact (write_report_raises test_stats w).
Qed.

Lemma recover_best_run (w : World) :
  recover_if_possible (Some neg_PER) w
  = (Returns tt, restored (best_by neg_PER (checkpoints w)) w,
     [ERecover (best_by neg_PER (checkpoints w))]).
Proof.
  unfold recover_if_possible, restored.
  change (default ckpt_recency (Some neg_PER)) with neg_PER.
  destruct (best_by neg_PER (checkpoints w)); reflexivity.
Qed.

(** X16: with a test loader that yields no batch, the final part of the
    script restores the best checkpoint, logs, and then raises the
    KeyError of the missing error statistics: no report is written and
    the files are untouched. *)
Theorem final_evaluation_without_test_batches (w : World) :
  test_loader params = [] ->
  let selected := best_by neg_PER (checkpoints w) in
  final_evaluation params lib w
  = (Raises (KeyError "PER"),
     restored selected w,
     [ ERecover selected;
       ELogStats [("Epoch loaded",
                   inject_Z (Z.of_nat (counter (live (restored selected w)))))] ]).
Proof.
  intros Htest. cbv zeta. unfold final_evaluation.
  erewrite bind_run by apply recover_best_run.
  rewrite Htest. reflexivity.
Qed.

(** X17: the final part of the script only reads the model it restored:
    whether it ends with the report or with an error, the weights, the
    optimizer, the scheduler and the epoch counter are those of the
    restored state, which are those of the selected checkpoint when the
    store has one; the gradients and the checkpoint store are those of
    the start; and no backward pass, optimizer step, gradient reset, save
    or pruning is called. *)
Theorem final_evaluation_reads_only (w : World) :
  let selected := best_by neg_PER (checkpoints w) in
  let r := final_evaluation params lib w in
  model (live (final r)) = model (live (restored selected w))
  /\ optimizer (live (final r)) = optimizer (live (restored selected w))
  /\ scheduler (live (final r)) = scheduler (live (restored selected w))
  /\ counter (live (final r)) = counter (live (restored selected w))
  /\ (forall c, selected = Some c ->
        model (live (final r)) = model (saved c)
        /\ c ∈ checkpoints w
        /\ forall c', c' ∈ checkpoints w -> (meta_PER c <= meta_PER c')%Q)
  /\ grads (final r) = grads w
  /\ checkpoints (final r) = checkpoints w
  /\ Forall (fun e => is_update e = false
                      /\ match e with
                         | ESaveCheckpoint _ | EDeleteCheckpoints _ => False
                         | _ => True
                         end) (trace r).
Proof.
  cbv zeta. set (selected := best_by neg_PER (checkpoints w)).
  destruct (run_batches_evaluate params lib Test (test_loader params) ∅ (restored selected w))
    as (test_stats & n & t_eval & Heval & Ht & _); [discriminate|].
  assert (Hsel : forall c, selected = Some c ->
            model (live (restored selected w)) = model (saved c)
            /\ c ∈ checkpoints w
            /\ forall c', c' ∈ checkpoints w -> (meta_PER c <= meta_PER c')%Q).
  { intros c Hc. split; [rewrite Hc; reflexivity|].
    split; [exact (best_by_elem _ _ _ Hc)|].
    intros c' Hc'. pose proof (best_by_greatest _ _ _ Hc c' Hc') as Hle.
    unfold neg_PER in Hle. lra. }
  assert (Hck : checkpoints (restored selected w) = checkpoints w)
    by (unfold restored; destruct selected; reflexivity).
  assert (Hgr : grads (restored selected w) = grads w)
    by (unfold restored; destruct selected; reflexivity).
  assert (Hev : Forall (fun e => is_update e = false
                                 /\ match e with
                                    | ESaveCheckpoint _ | EDeleteCheckpoints _ => False
                                    | _ => True
                                    end) t_eval).
  { eapply Forall_impl; [exact Ht|]. intros e [Hu Hs]. split; [exact Hu|].
    destruct e; try exact I; discriminate Hs. }
  unfold final_evaluation.
  erewrite bind_run by apply recover_best_run. fold selected.
  unfold evaluate. erewrite bind_run by exact Heval.
  erewrite bind_run by reflexivity.
  unfold final, trace. cbn [fst snd].
  destruct (test_stats !! "PER") as [per|] eqn:Hper.
  - rewrite (write_report_run test_stats per _ Hper).
    cbn [fst snd live grads checkpoints set_files set_live set_normalizer
         model optimizer scheduler counter].
    split; [reflexivity|]. split; [reflexivity|]. split; [reflexivity|].
    split; [reflexivity|]. split; [exact Hsel|]. split; [exact Hgr|]. split; [exact Hck|].
    repeat (apply Forall_cons; split; [split; [reflexivity|exact I]|]).
    apply Forall_app; split; [exact Hev|].
    repeat (apply Forall_cons; split; [split; [reflexivity|exact I]|]). constructor.
  - rewrite (write_report_raises test_stats _ Hper).
    cbn [fst snd live grads checkpoints set_live set_normalizer
         model optimizer scheduler counter].
    split; [reflexivity|]. split; [reflexivity|]. split; [reflexivity|].
    split; [reflexivity|]. split; [exact Hsel|]. split; [exact Hgr|]. split; [exact Hck|].
    repeat (apply Forall_cons; split; [split; [reflexivity|exact I]|]).
    apply Forall_app; split; [exact Hev|].
    repeat (apply Forall_cons; split; [split; [reflexivity|exact I]|]). constructor.
Qed.

Lemma best_by_recency_head (w : World) :
  store_ok w -> best_by ckpt_recency (checkpoints w) = head (checkpoints w).
Proof.
  intros [Hsorted _]. destruct (checkpoints w) as [|c l]; [reflexivity|].
  apply StronglySorted_inv in Hsorted as [_ Hc].
  apply best_by_recency_newest. exact Hc.
Qed.

(** X18: in a well-ordered store the script starts by loading the most
    recent checkpoint, the first of the store, whatever its error rate,
    and trains from its state; with an empty store it trains from the
    state it was started in. *)
Theorem run_experiment_resumes_latest (w : World) :
  store_ok w ->
  resumed w = restored (head (checkpoints w)) w
  /\ (checkpoints w = [] -> resumed w = w)
  /\ exists rest,
       trace (run_experiment params lib w) = ERecover (head (checkpoints w)) :: rest.
Proof.
  intros Hok.
  assert (Hrec : recover_if_possible None w
                 = (Returns tt, restored (head (checkpoints w)) w,
                    [ERecover (head (checkpoints w))])).
  { unfold recover_if_possible, restored.
    change (default ckpt_recency None) with ckpt_recency.
    rewrite (best_by_recency_head w Hok).
    destruct (head (checkpoints w)); reflexivity. }
  split; [unfold resumed; rewrite Hrec; reflexivity|]. split.
  - intros Hnil. unfold resumed. rewrite Hrec, Hnil. reflexivity.
  - unfold run_experiment. cbv zeta.
    erewrite bind_run by exact Hrec.
    unfold trace. cbn [snd app]. eexists. reflexivity.
Qed.

Lemma keep_only_nonempty (c : Ckpt) (l : list Ckpt) :
  Forall (fun x => (unixtime x < unixtime c)%nat) l ->
  keep_only [ckpt_recency; neg_PER] (c :: l) <> [].
Proof.
  intros Hc. unfold keep_only, protected_by. cbn [omap list_omap].
  rewrite (best_by_recency_newest c l Hc).
  destruct (best_by neg_PER (c :: l)); cbn [fmap list_fmap];
    (rewrite filter_cons_True by left); discriminate.
Qed.

Lemma fit_batch_keeps (b : Batch) (w : World) :
  exists stats w' t,
    fit_batch params lib b w = (Returns stats, w', t)
    /\ checkpoints w' = checkpoints w /\ clock w' = clock w
    /\ counter (live w') = counter (live w).
Proof.
  destruct b as [[[ids wavs] wav_lens] [[ids' phns] phn_lens]].
  pose proof (forward_result_unpacks params lib w wavs wav_lens phns false Train) as Hu.
  simpl tag in Hu.
  do 3 eexists. unfold fit_batch.
  erewrite bind_run by apply compute_forward_run.
  erewrite bind_run by (apply compute_objectives_run; exact Hu).
  cbn [fst snd]. split; [reflexivity|]. repeat split.
Qed.

Lemma run_batches_fit_keeps (batches : list Batch) (acc : gmap string (list StatVal))
    (w : World) :
  exists stats w' t,
    run_batches (fit_batch params lib) batches acc w = (Returns stats, w', t)
    /\ checkpoints w' = checkpoints w /\ clock w' = clock w
    /\ counter (live w') = counter (live w).
Proof.
  revert acc w. induction batches as [|b bs IH]; intros acc w.
  - exists acc, w, []. repeat split; reflexivity.
  - destruct (fit_batch_keeps b w) as (stats1 & w1 & t1 & Hb & Hc1 & Hk1 & Hn1).
    destruct (IH (add_stats acc stats1) w1) as (stats & w' & t & Hrun & Hc & Hk & Hn).
    exists stats, w'. eexists. cbn [run_batches].
    erewrite bind_run by exact Hb. rewrite Hrun. cbn [fst snd].
    split; [reflexivity|]. repeat split; congruence.
Qed.

Lemma fit_epochs_counts (remaining : nat) (w : World) :
  valid_loader params <> [] ->
  store_ok w ->
  exists w' t,
    fit_epochs params lib remaining (train_loader params) (valid_loader params) w
    = (Returns tt, w', t)
    /\ store_ok w'
    /\ counter (live w') = (counter (live w) + remaining)%nat
    /\ ((0 < remaining)%nat \/ checkpoints w <> [] -> checkpoints w' <> []).
Proof.
  intros Hvalid. revert w. induction remaining as [|k IH]; intros w Hok.
  - exists w, []. split; [reflexivity|]. split; [exact Hok|]. split; [lia|].
    intros [Hk|Hne]; [lia|exact Hne].
  - set (w0 := set_live (set_counter (S (counter (live w)))) w).
    destruct (run_batches_fit_keeps (train_loader params) ∅ w0)
      as (train_stats & w1 & t1 & Htrain & Hc1 & Hk1 & Hn1).
    destruct (run_batches_evaluate params lib Valid (valid_loader params) ∅ w1)
      as (valid_stats & n & t2 & Hval & _ & Hper); [discriminate|].
    destruct (Hper (or_introl Hvalid)) as [per_stats Hper'].
    set (w2 := set_live (set_normalizer n) w1) in *.
    assert (Hok2 : store_ok w2).
    { apply (store_ok_frame w w2); [| |exact Hok].
      - unfold w2. cbn [checkpoints set_live]. rewrite Hc1. reflexivity.
      - unfold w2. cbn [clock set_live]. rewrite Hk1. reflexivity. }
    pose proof (on_epoch_end_store_ok params lib (S (counter (live w))) train_stats
                  valid_stats per_stats w2 Hper' Hok2) as Hok3.
    pose proof (on_epoch_end_run params lib (S (counter (live w))) train_stats
                  valid_stats per_stats w2 Hper') as Hend.
    cbv zeta in Hend. rewrite Hend in Hok3. unfold final in Hok3. cbn [fst snd] in Hok3.
    match type of Hend with _ = (_, ?x, _) => set (w3 := x) in * end.
    assert (Hne3 : checkpoints w3 <> []).
    { unfold w3. cbn [checkpoints set_checkpoints set_clock set_live].
      destruct Hok2 as [_ Hclock2].
      apply keep_only_nonempty. exact Hclock2. }
    assert (Hn3 : counter (live w3) = S (counter (live w))).
    { unfold w3, w2. cbn [live set_checkpoints set_clock set_live counter
                          set_scheduler set_optimizer set_normalizer].
      rewrite Hn1. reflexivity. }
    destruct (IH w3 Hok3) as (w' & t & Hrest & Hok' & Hn' & Hne').
    exists w'. eexists. cbn [fit_epochs].
    erewrite bind_run by reflexivity. cbn [fst snd]. fold w0.
    erewrite bind_run by exact Htrain. cbn [fst snd].
    erewrite bind_run by exact Hval. cbn [fst snd].
    erewrite bind_run by exact Hend. cbn [fst snd].
    rewrite Hrest. cbn [fst snd].
    split; [reflexivity|]. split; [exact Hok'|]. split; [lia|].
    intros _. apply Hne'. right. exact Hne3.
Qed.

(** X19: with a validation loader that yields a batch and a well-ordered
    store, the training loop returns: every epoch end finds its error
    statistics.  It runs the epochs the counter has left and leaves the
    counter at the limit (or where it was, if beyond), the store stays
    well ordered, and as soon as one epoch ran the store holds a
    checkpoint for the final restore. *)
Theorem training_loop_completes (w : World) :
  valid_loader params <> [] ->
  store_ok w ->
  let r := fit params lib (train_loader params) (valid_loader params) w in
  outcome r = Returns tt
  /\ store_ok (final r)
  /\ counter (live (final r)) = Nat.max (counter (live w)) (number_of_epochs params)
  /\ ((counter (live w) < number_of_epochs params)%nat -> checkpoints (final r) <> []).
Proof.
  intros Hvalid Hok. cbv zeta. unfold fit.
  destruct (fit_epochs_counts (number_of_epochs params - counter (live w)) w Hvalid Hok)
    as (w' & t & -> & Hok' & Hn & Hne).
  unfold outcome, final. cbn [fst snd].
  split; [reflexivity|]. split; [exact Hok'|]. split; [lia|].
  intros Hlt. apply Hne. left. lia.
Qed.

(** X20: with a validation loader that yields no batch and an epoch left,
    the training loop fits the training batches of the first epoch and
    then stops with the KeyError of the missing error statistics at the
    epoch end: the epoch counter has advanced, and no checkpoint was
    saved. *)
Theorem training_loop_without_validation (w : World) :
  valid_loader params = [] ->
  (counter (live w) < number_of_epochs params)%nat ->
  let r := fit params lib (train_loader params) (valid_loader params) w in
  outcome r = Raises (KeyError "PER")
  /\ checkpoints (final r) = checkpoints w
  /\ clock (final r) = clock w
  /\ counter (live (final r)) = S (counter (live w))
  /\ Forall (fun e => is_script_event e = false) (trace r).
Proof.
  intros Hvalid Hlt. cbv zeta. unfold fit.
  destruct (number_of_epochs params - counter (live w))%nat as [|k] eqn:Hk; [lia|].
  set (w0 := set_live (set_counter (S (counter (live w)))) w).
  assert (Hfit : forall batches acc (v : World),
            exists stats v' t,
              run_batches (fit_batch params lib) batches acc v = (Returns stats, v', t)
              /\ checkpoints v' = checkpoints v /\ clock v' = clock v
              /\ counter (live v') = counter (live v)
              /\ Forall (fun e => is_script_event e = false) t).
  { induction batches as [|b bs IH]; intros acc v.
    - exists acc, v, []. repeat split; constructor.
    - destruct b as [[[ids wavs] wav_lens] [[ids' phns] phn_lens]].
      pose proof (forward_result_unpacks params lib v wavs wav_lens phns false Train) as Hu.
      simpl tag in Hu.
      match goal with
      | |- context [run_batches _ (?b0 :: _) _ _] => set (b := b0)
      end.
      assert (Hb : exists stats1 v1 t1,
                 fit_batch params lib b v = (Returns stats1, v1, t1)
                 /\ checkpoints v1 = checkpoints v /\ clock v1 = clock v
                 /\ counter (live v1) = counter (live v)
                 /\ Forall (fun e => is_script_event e = false) t1).
      { do 3 eexists. unfold fit_batch, b.
        erewrite bind_run by apply compute_forward_run.
        erewrite bind_run by (apply compute_objectives_run; exact Hu).
        cbn [fst snd]. split; [reflexivity|]. split; [reflexivity|].
        split; [reflexivity|]. split; [reflexivity|].
        apply Forall_app; split.
        - eapply Forall_impl; [apply (batch_events_forward params lib)|].
          intros e [_ He]. exact He.
        - apply Forall_app; split.
          + eapply Forall_impl; [apply (batch_events_objectives params lib)|].
            intros e [_ He]. exact He.
          + repeat constructor. }
      destruct Hb as (stats1 & v1 & t1 & Hb & Hc1 & Hk1 & Hn1 & Ht1).
      destruct (IH (add_stats acc stats1) v1) as (stats & v' & t & Hrun & Hc & Hk' & Hn & Ht).
      exists stats, v'. eexists. cbn [run_batches].
      erewrite bind_run by exact Hb. rewrite Hrun. cbn [fst snd].
      split; [reflexivity|]. split; [congruence|]. split; [congruence|].
      split; [congruence|]. apply Forall_app; split; assumption. }
  destruct (Hfit (train_loader params) ∅ w0)
    as (train_stats & w1 & t1 & Htrain & Hc1 & Hk1 & Hn1 & Ht1).
  cbn [fit_epochs].
  erewrite bind_run by reflexivity. cbn [fst snd]. fold w0.
  erewrite bind_run by exact Htrain. cbn [fst snd].
  rewrite Hvalid. cbn [run_batches].
  erewrite bind_run by reflexivity. cbn [fst snd].
  erewrite bind_raise by reflexivity.
  unfold outcome, final, trace. cbn [fst snd].
  split; [reflexivity|]. split; [exact Hc1|]. split; [exact Hk1|].
  split; [rewrite Hn1; reflexivity|].
  rewrite !app_nil_r. exact Ht1.
Qed.

(** X21: with a validation loader and a test loader that each yield a
    batch and a well-ordered store, the script from the resume on runs to
    its end: it returns; the evaluation of the test loader, in the state
    after training with the checkpoint of lowest error rate restored,
    returns statistics with an entry "PER", and the file at the configured
    path holds the summary and the alignments of that entry; and the store
    is still well ordered. *)
Theorem run_experiment_completes (w : World) :
  valid_loader params <> [] ->
  test_loader params <> [] ->
  store_ok w ->
  let w1 := final (fit params lib (train_loader params) (valid_loader params) (resumed w)) in
  let selected := best_by neg_PER (checkpoints w1) in
  let r := run_experiment params lib w in
  outcome r = Returns tt
  /\ (exists test_stats per,
        outcome (evaluate params lib (test_loader params) (restored selected w1))
        = Returns test_stats
        /\ test_stats !! "PER" = Some per
        /\ files (final r) !! wer_file params
           = Some [RSummary (wer_summary lib per); RAlignments per])
  /\ store_ok (final r).
Proof.
  intros Hvalid Htest Hok.
  assert (Hrec : recover_if_possible None w
                 = (Returns tt, restored (head (checkpoints w)) w,
                    [ERecover (head (checkpoints w))])).
  { unfold recover_if_possible, restored.
    change (default ckpt_recency None) with ckpt_recency.
    rewrite (best_by_recency_head w Hok).
    destruct (head (checkpoints w)); reflexivity. }
  assert (Hres : resumed w = restored (head (checkpoints w)) w).
  { unfold resumed. rewrite Hrec. reflexivity. }
  rewrite Hres.
  set (w0 := restored (head (checkpoints w)) w) in *.
  assert (Hok0 : store_ok w0).
  { apply (store_ok_frame w w0); [| |exact Hok];
      unfold w0, restored; destruct (head (checkpoints w)); reflexivity. }
  destruct (fit_epochs_counts (number_of_epochs params - counter (live w0)) w0 Hvalid Hok0)
    as (w1 & t1 & Hfit & Hok1 & _ & _).
  assert (Hfit' : fit params lib (train_loader params) (valid_loader params) w0
                  = (Returns tt, w1, t1)) by (unfold fit; exact Hfit).
  rewrite Hfit'. change (final (Returns tt, w1, t1)) with w1. cbv zeta.
  set (selected := best_by neg_PER (checkpoints w1)).
  destruct (run_batches_evaluate params lib Test (test_loader params) ∅ (restored selected w1))
    as (test_stats & n & t_eval & Heval & _ & Hper); [discriminate|].
  destruct (Hper (or_introl Htest)) as [per Hper'].
  unfold run_experiment. cbv zeta.
  erewrite bind_run by exact Hrec. fold w0.
  erewrite (bind_run (fit params lib (train_loader params) (valid_loader params)))
    by exact Hfit'.
  unfold final_evaluation.
  erewrite bind_run by apply recover_best_run. fold selected.
  unfold evaluate. erewrite bind_run by exact Heval.
  erewrite bind_run by reflexivity.
  rewrite (write_report_run test_stats per _ Hper').
  change (tag Test) with "test" in Heval. rewrite Heval.
  unfold outcome, final. cbn [fst snd].
  split; [reflexivity|]. split.
  - exists test_stats, per. split; [reflexivity|]. split; [exact Hper'|].
    cbn [files set_files].
    rewrite !lookup_alter_eq, lookup_insert_eq. reflexivity.
  - apply (store_ok_frame w1); [| |exact Hok1];
      unfold restored; destruct selected; reflexivity.
Qed.

End MoreScript.

(** ** The further properties on the concrete instance *)

Section MoreInstances.

Import Demo.

#[local] Existing Instance exact_arith.
#[local] Existing Instance demo_torch.
#[local] Existing Instance demo_scoring.

Lemma demo_store_ok : store_ok demo_store.
Proof. split; repeat constructor; simpl; lia. Qed.

(** X2 on the instance. *)
Lemma compute_objectives_loss_ignores_stage_witness :
  "valid" <> "train"
  /\ exists loss stats stats',
       outcome (compute_objectives (demo_params true (1 # 2)) demo_lib
                  (Pred3 8%Z 16%Z [1; 3 # 4]%Q) demo_targets "train" demo_world)
       = Returns (loss, stats)
       /\ outcome (compute_objectives (demo_params true (1 # 2)) demo_lib
                     (Pred4 8%Z 16%Z [1; 3 # 4]%Q [[3; 1]; [5]]%Z) demo_targets "valid"
                     demo_store)
          = Returns (loss, stats').
Proof.
  assert (Hs : "valid" <> "train") by discriminate.
  split; [exact Hs|].
  exact (compute_objectives_loss_ignores_stage (demo_params true (1 # 2)) demo_lib
           8%Z 16%Z [1; 3 # 4]%Q [[3; 1]; [5]]%Z demo_targets "valid"
           demo_world demo_store Hs).
Defined.

(** X3 on the instance. *)
Lemma compute_objectives_stats_witness :
  "test" <> "train"
  /\ exists loss,
       outcome (compute_objectives (demo_params true 1) demo_lib
                  (Pred3 8%Z 16%Z [1; 3 # 4]%Q)
                  (["utt1"; "utt2"], demo_phns, [1; 1 # 2]%Q) "train" demo_world)
       = Returns (loss, ∅).
Proof.
  assert (Hs : "test" <> "train") by discriminate.
  split; [exact Hs|].
  exact (proj2 (compute_objectives_stats (demo_params true 1) demo_lib
                  8%Z 16%Z [1; 3 # 4]%Q [[3; 1]; [5]]%Z ["utt1"; "utt2"] demo_phns
                  [1; 1 # 2]%Q "test" demo_world Hs)).
Defined.


(** X7 on the instance: the same labels under other ids and lengths. *)
Lemma compute_forward_ignores_targets_witness :
  compute_forward (demo_params true 1) demo_lib demo_inputs
                  (["utt1"; "utt2"], demo_phns, [1; 1 # 2]%Q) "test" false demo_world
  = compute_forward (demo_params true 1) demo_lib demo_inputs
                    (["a"; "b"], demo_phns, [0; 0]%Q) "test" false demo_world.
Proof.
  exact (proj2 (proj2 (compute_forward_ignores_targets (demo_params true 1) demo_lib
                         demo_inputs ["utt1"; "utt2"] demo_phns [1; 1 # 2]%Q
                         ["a"; "b"] demo_phns [0; 0]%Q "test" false demo_world))
               eq_refl).
Defined.

(** X10 on the instance. *)
Lemma evaluate_batch_bad_stage_witness :
  "Train" <> "train" /\ "Train" <> "valid" /\ "Train" <> "test"
  /\ outcome (evaluate_batch (demo_params true 1) demo_lib demo_batch "Train" demo_world)
     = Raises (ValueError "not enough values to unpack (expected 4, got 3)").
Proof.
  assert (H1 : "Train" <> "train") by discriminate.
  assert (H2 : "Train" <> "valid") by discriminate.
  assert (H3 : "Train" <> "test") by discriminate.
  split; [exact H1|]. split; [exact H2|]. split; [exact H3|].
  exact (proj1 (evaluate_batch_bad_stage (demo_params true 1) demo_lib demo_batch
                  "Train" demo_world H1 H2 H3)).
Defined.

(** X11 on the instance: statistics with no entry at all. *)
Lemma on_epoch_end_without_error_stats_witness :
  (∅ : gmap string (list StatVal)) !! "PER" = None
  /\ on_epoch_end (demo_params true 1) demo_lib 1 ∅ (Some ∅) demo_store
     = (Raises (KeyError "PER"), demo_store, []).
Proof.
  split; [reflexivity|].
  exact (proj2 (on_epoch_end_without_error_stats (demo_params true 1) demo_lib 1 ∅
                  demo_store) ∅ eq_refl).
Defined.

(** X12 on the instance. *)
Lemma on_epoch_end_frame_witness :
  demo_valid_stats !! "PER" = Some [SPer [("utt1", (["sil"; "ah"], ["sil"]))]]
  /\ model (live (final (on_epoch_end (demo_params true 1) demo_lib 1 ∅
                                      (Some demo_valid_stats) demo_store)))
     = model (live demo_store).
Proof.
  split; [reflexivity|].
  destruct (on_epoch_end_frame (demo_params true 1) demo_lib 1 ∅ demo_valid_stats _
              demo_store eq_refl) as (_ & _ & Hmodel & _).
  exact Hmodel.
Defined.

(** X13 on the instance. *)
Lemma resume_after_epoch_end_witness :
  demo_valid_stats !! "PER" = Some [SPer [("utt1", (["sil"; "ah"], ["sil"]))]]
  /\ store_ok demo_store
  /\ final (recover_if_possible None
              (final (on_epoch_end (demo_params true 1) demo_lib 1 ∅
                                   (Some demo_valid_stats) demo_store)))
     = final (on_epoch_end (demo_params true 1) demo_lib 1 ∅
                           (Some demo_valid_stats) demo_store).
Proof.
  split; [reflexivity|]. split; [exact demo_store_ok|].
  rewrite (resume_after_epoch_end (demo_params true 1) demo_lib 1 ∅ demo_valid_stats _
             demo_store eq_refl demo_store_ok).
  reflexivity.
Defined.

(** X14 and X15 on the instance. *)
Lemma write_report_overwrites_witness :
  demo_valid_stats !! "PER" = Some [SPer [("utt1", (["sil"; "ah"], ["sil"]))]]
  /\ outcome (write_report (demo_params true 1) demo_lib demo_valid_stats demo_world)
     = Returns tt.
Proof.
  split; [reflexivity|].
  exact (proj1 (write_report_overwrites (demo_params true 1) demo_lib demo_valid_stats _
                  demo_world eq_refl)).
Defined.

Lemma write_report_without_error_stats_witness :
  (∅ : gmap string (list StatVal)) !! "PER" = None
  /\ write_report (demo_params true 1) demo_lib ∅ demo_world
     = (Raises (KeyError "PER"), demo_world, []).
Proof.
  split; [reflexivity|].
  exact (write_report_without_error_stats (demo_params true 1) demo_lib ∅ demo_world
           eq_refl).
Defined.

(** X16 on the instance: the bundle with an empty test loader. *)
Lemma final_evaluation_without_test_batches_witness :
  test_loader (with_loaders (demo_params true 1) [demo_batch] []) = []
  /\ outcome (final_evaluation (with_loaders (demo_params true 1) [demo_batch] [])
                               demo_lib demo_store)
     = Raises (KeyError "PER").
Proof.
  split; [reflexivity|].
  rewrite (final_evaluation_without_test_batches
             (with_loaders (demo_params true 1) [demo_batch] []) demo_lib demo_store
             eq_refl).
  reflexivity.
Defined.

(** X17 on the instance: the store has a checkpoint of lowest error rate,
    saved with weights 3. *)
Lemma final_evaluation_reads_only_witness :
  exists c,
    best_by neg_PER (checkpoints demo_store) = Some c
    /\ model (live (final (final_evaluation (demo_params true 1) demo_lib demo_store)))
       = model (saved c).
Proof.
  eexists. split; [reflexivity|].
  destruct (final_evaluation_reads_only (demo_params true 1) demo_lib demo_store)
    as (_ & _ & _ & _ & Hsel & _).
  exact (proj1 (Hsel _ eq_refl)).
Defined.

(** X18 on the instance. *)
Lemma run_experiment_resumes_latest_witness :
  store_ok demo_store
  /\ resumed demo_store = restored (head (checkpoints demo_store)) demo_store.
Proof.
  split; [exact demo_store_ok|].
  exact (proj1 (run_experiment_resumes_latest (demo_params true 1) demo_lib demo_store
                  demo_store_ok)).
Defined.

(** X19 on the instance. *)
Lemma training_loop_completes_witness :
  valid_loader (demo_params true 1) <> []
  /\ store_ok demo_store
  /\ outcome (fit (demo_params true 1) demo_lib (train_loader (demo_params true 1))
                  (valid_loader (demo_params true 1)) demo_store) = Returns tt.
Proof.
  assert (Hv : valid_loader (demo_params true 1) <> []) by discriminate.
  split; [exact Hv|]. split; [exact demo_store_ok|].
  exact (proj1 (training_loop_completes (demo_params true 1) demo_lib demo_store
                  Hv demo_store_ok)).
Defined.

(** X20 on the instance: the bundle with an empty validation loader. *)
Lemma training_loop_without_validation_witness :
  valid_loader (with_loaders (demo_params true 1) [] [demo_batch]) = []
  /\ (counter (live demo_store)
      < number_of_epochs (with_loaders (demo_params true 1) [] [demo_batch]))%nat
  /\ outcome (fit (with_loaders (demo_params true 1) [] [demo_batch]) demo_lib
                  (train_loader (with_loaders (demo_params true 1) [] [demo_batch]))
                  (valid_loader (with_loaders (demo_params true 1) [] [demo_batch]))
                  demo_store)
     = Raises (KeyError "PER").
Proof.
  assert (Hlt : (counter (live demo_store)
                 < number_of_epochs (with_loaders (demo_params true 1) [] [demo_batch]))%nat)
    by (vm_compute; lia).
  split; [reflexivity|]. split; [exact Hlt|].
  exact (proj1 (training_loop_without_validation
                  (with_loaders (demo_params true 1) [] [demo_batch]) demo_lib demo_store
                  eq_refl Hlt)).
Defined.

(** X21 on the instance. *)
Lemma run_experiment_completes_witness :
  valid_loader (demo_params true 1) <> []
  /\ test_loader (demo_params true 1) <> []
  /\ store_ok demo_store
  /\ outcome (run_experiment (demo_params true 1) demo_lib demo_store) = Returns tt.
Proof.
  assert (Hv : valid_loader (demo_params true 1) <> []) by discriminate.
  assert (Ht : test_loader (demo_params true 1) <> []) by discriminate.
  split; [exact Hv|]. split; [exact Ht|]. split; [exact demo_store_ok|].
  exact (proj1 (run_experiment_completes (demo_params true 1) demo_lib demo_store
                  Hv Ht demo_store_ok)).
Defined.

End MoreInstances.

(** ** The lengths on float32 tensors *)

Section FloatLengths.

Import Demo FloatDemo.

#[local] Existing Instance ieee32.
#[local] Existing Instance float_torch.
#[local] Existing Instance demo_scoring.

(** X6: on float32 tensors, for every padded width from 1 to 64 and every
    number [n] of labels up to the width, with the relative length the
    float32 nearest to [n / width]: the absolute length is [n]; the labels
    with the end-of-sequence token are one column wider; the length handed
    to the sequence cost is positive, and greater than 1 for an utterance
    that fills the width; decoded against the width of the labels it gives
    [n + 1]; decoded against the width of the labels with the token, which
    it comes with, it gives [n + 1] only when [n + 1] is less than half the
    width, or half the width and even. *)
Theorem rel_length_sweep :
  let abs_length := fun width n =>
    abs_length_of (utterance_labels width n) (utterance_lens width n) in
  let phns_with_eos := fun width n =>
    append_eos_token float_lib (utterance_labels width n) (abs_length width n) 41 in
  let rel_length := fun width n =>
    rel_length_of (utterance_labels width n) (abs_length width n) in
  Forall (fun width =>
    Forall (fun n =>
      shape1 (utterance_labels width n) = width
      /\ shape1 (phns_with_eos width n) = S width
      /\ abs_length width n = [Binary32.of_int (Z.of_nat n)]
      /\ Forall (fun r => SFltb (S754_zero false) r = true) (rel_length width n)
      /\ (n = width -> Forall (fun r => SFltb (f32 1 0) r = true) (rel_length width n))
      /\ abs_length_of (utterance_labels width n) (rel_length width n)
         = [Binary32.of_int (Z.of_nat (n + 1))]
      /\ (abs_length_of (phns_with_eos width n) (rel_length width n)
          = [Binary32.of_int (Z.of_nat (n + 1))]
          <-> 2 * (n + 1) < width \/ (2 * (n + 1) = width /\ Nat.even (n + 1) = true)))
      (seq 0 (S width)))
    (seq 1 64).
Proof.
  intros abs_length phns_with_eos rel_length.
  apply (bool_decide_unpack _). vm_compute. exact I.
Qed.

End FloatLengths.
